(** * Ztools: spreadsheet ingestion pipelines

    Shallow embedding of the two spreadsheet tools of the repository:

    - the Word-Filter tool, [src/app/apps/scheduling/page.tsx]
      ([isDefaultExcluded], [parseExcelFile], [extractUniqueWords],
      [processExcelData], [toggleWord], [setAllVisible],
      [processAndAddFiles]);
    - the Metric compiler (the capacity-reliability page)
      ([parseNumber], [toIsoDateString], [getWeekNumber],
      [processExcelFile], [generateCompiledExcel]).

    JavaScript values are modelled as follows.
    - A string is a sequence of code units; the model covers code units
      below 256, carried by [string].
    - A number is [NaN], an infinity or a finite value.  Finite values are
      exact rationals: rounding to binary64 and the sign of zero are not
      modelled.
    - A [Date] object is its time value: milliseconds since the epoch, or
      [None] for the invalid date.
    - An array is a [list]; reading past the end gives [undefined].
    - An object used as a dictionary is a [gmap] of its own properties.
      The members it inherits from [Object.prototype] are not modelled,
      but for the accessor [__proto__] where the code assigns under a
      computed name ([WordFilter.assignFlag]). *)

From Stdlib Require Import ZArith QArith Qround Strings.Ascii Strings.String.
From Stdlib Require Import Numbers.DecimalString Sorting.Sorted Lia.
From stdpp Require Import gmap strings list.

Local Open Scope string_scope.
Local Open Scope Z_scope.

(** ** Strings *)

Module JsString.

Definition code (c : ascii) : Z := Z.of_N (N_of_ascii c).

(** WhiteSpace and LineTerminator code units below 256: TAB, LF, VT, FF,
    CR, SP and NBSP. *)
Definition isWhiteSpace (c : ascii) : bool :=
  let n := code c in
  ((9 <=? n) && (n <=? 13)) || (n =? 32) || (n =? 160).

Definition isEmpty (s : string) : bool :=
  match s with EmptyString => true | String _ _ => false end.

Fixpoint trimStart (s : string) : string :=
  match s with
  | EmptyString => EmptyString
  | String c r => if isWhiteSpace c then trimStart r else s
  end.

Fixpoint trimEnd (s : string) : string :=
  match s with
  | EmptyString => EmptyString
  | String c r =>
      let r' := trimEnd r in
      if isWhiteSpace c && isEmpty r' then EmptyString else String c r'
  end.

(** [String.prototype.trim] *)
Definition trim (s : string) : string := trimEnd (trimStart s).

Definition lowerChar (c : ascii) : ascii :=
  let n := code c in
  if ((65 <=? n) && (n <=? 90))
     || ((192 <=? n) && (n <=? 222) && negb (n =? 215))
  then ascii_of_N (Z.to_N (n + 32)) else c.

(** [String.prototype.toLowerCase] *)
Fixpoint toLowerCase (s : string) : string :=
  match s with
  | EmptyString => EmptyString
  | String c r => String (lowerChar c) (toLowerCase r)
  end.

(** [s.startsWith(p)] *)
Definition startsWith (s p : string) : bool := String.prefix p s.

(** [s.includes(p)] *)
Fixpoint includes (s p : string) : bool :=
  String.prefix p s
  || match s with
     | EmptyString => false
     | String _ r => includes r p
     end.

(** [s.replace(p, "")] for a one-character pattern: the first occurrence
    is removed. *)
Fixpoint removeFirst (p : ascii) (s : string) : string :=
  match s with
  | EmptyString => EmptyString
  | String c r => if Ascii.eqb c p then r else String c (removeFirst p r)
  end.

(** [s.split(sep)] for a one-character separator. *)
Fixpoint split (sep : ascii) (s : string) : list string :=
  match s with
  | EmptyString => [EmptyString]
  | String c r =>
      if Ascii.eqb c sep then EmptyString :: split sep r
      else match split sep r with
           | [] => [String c EmptyString]
           | w :: ws => String c w :: ws
           end
  end.

(** [s.padStart(2, "0")] *)
Definition padStart2 (s : string) : string :=
  match s with
  | EmptyString => "00"
  | String c EmptyString => String "0" s
  | _ => s
  end.

(** Decimal text of an integer, as [Number::toString] gives it. *)
Definition ofZ (z : Z) : string := NilZero.string_of_int (Z.to_int z).

(** Code-unit order, the order of [Array.prototype.sort] without a
    comparator. *)
Definition compareCodeUnits (a b : string) : Z :=
  match String.compare a b with Lt => -1 | Eq => 0 | Gt => 1 end.

End JsString.

(** ** Numbers *)

Inductive number : Type :=
| NaN
| Infinity (negative : bool)
| Finite (q : Q).

Module JsNumber.

Definition ofZ (z : Z) : number := Finite (inject_Z z).

Definition isNaN (n : number) : bool :=
  match n with NaN => true | _ => false end.

(** ToBoolean on a number: [0] and [NaN] are falsy. *)
Definition truthy (n : number) : bool :=
  match n with
  | NaN => false
  | Infinity _ => true
  | Finite q => negb (Qeq_bool q 0)
  end.

(** [n / 100] *)
Definition div100 (n : number) : number :=
  match n with
  | Finite q => Finite (Qred (q / 100))
  | _ => n
  end.

(** [n - 1] *)
Definition pred (n : number) : number :=
  match n with
  | Finite q => Finite (Qred (q - 1))
  | _ => n
  end.

(** Truncation towards zero of a finite value (ToIntegerOrInfinity). *)
Definition truncQ (q : Q) : Z := Z.quot (Qnum q) (Z.pos (Qden q)).

Definition negate (n : number) : number :=
  match n with
  | NaN => NaN
  | Infinity b => Infinity (negb b)
  | Finite q => Finite (Qred (- q))
  end.

(** *** Numeric literals in strings *)

Definition digitValue (c : ascii) : option Z :=
  let n := JsString.code c in
  if (48 <=? n) && (n <=? 57) then Some (n - 48) else None.

Definition hexValue (c : ascii) : option Z :=
  let n := JsString.code c in
  if (48 <=? n) && (n <=? 57) then Some (n - 48)
  else if (65 <=? n) && (n <=? 70) then Some (n - 55)
  else if (97 <=? n) && (n <=? 102) then Some (n - 87)
  else None.

Definition binValue (c : ascii) : option Z :=
  match digitValue c with Some d => if d <? 2 then Some d else None | None => None end.

Definition octValue (c : ascii) : option Z :=
  match digitValue c with Some d => if d <? 8 then Some d else None | None => None end.

(** Longest run of digits at the head of [s]: its value, its length and
    what follows it. *)
Fixpoint takeDigits (acc : Z) (len : nat) (s : string) : Z * nat * string :=
  match s with
  | EmptyString => (acc, len, s)
  | String c r =>
      match digitValue c with
      | Some d => takeDigits (10 * acc + d) (S len) r
      | None => (acc, len, s)
      end
  end.

(** A whole string of digits in the given radix, at least one. *)
Fixpoint radixDigits (radix : Z) (value : ascii -> option Z) (acc : Z) (s : string)
  : option Z :=
  match s with
  | EmptyString => Some acc
  | String c r =>
      match value c with
      | Some d => radixDigits radix value (radix * acc + d) r
      | None => None
      end
  end.

Definition radixLiteral (radix : Z) (value : ascii -> option Z) (s : string) : number :=
  match s with
  | EmptyString => NaN
  | _ => match radixDigits radix value 0 s with
         | Some v => ofZ v
         | None => NaN
         end
  end.

(** ExponentPart at the head of [s], when there is a complete one. *)
Definition exponentPart (s : string) : option (Z * string) :=
  match s with
  | String c r =>
      if Ascii.eqb c "e" || Ascii.eqb c "E" then
        let '(neg, r1) :=
          match r with
          | String "+" r' => (false, r')
          | String "-" r' => (true, r')
          | _ => (false, r)
          end in
        let '(v, len, r2) := takeDigits 0 0 r1 in
        match len with
        | O => None
        | S _ => Some (if neg then - v else v, r2)
        end
      else None
  | EmptyString => None
  end.

(** [mantissa * 10 ^ exponent] as an exact rational. *)
Definition scale10 (mantissa exponent : Z) : Q :=
  if 0 <=? exponent then inject_Z (mantissa * 10 ^ exponent)
  else Qred (Qmake mantissa (Z.to_pos (10 ^ (- exponent)))).

(** StrUnsignedDecimalLiteral at the head of [s]: the longest prefix that
    is one, with its value and the rest of the string. *)
Definition unsignedDecimal (s : string) : option (number * string) :=
  if JsString.startsWith s "Infinity" then
    Some (Infinity false, String.substring 8 (String.length s - 8) s)
  else
    let '(ip, iplen, r1) := takeDigits 0 0 s in
    let finish (mantissa : Z) (fraclen : nat) (rest : string) :=
      match exponentPart rest with
      | Some (e, rest') =>
          Some (Finite (scale10 mantissa (e - Z.of_nat fraclen)), rest')
      | None => Some (Finite (scale10 mantissa (- Z.of_nat fraclen)), rest)
      end in
    match r1 with
    | String "." r =>
        let '(m, fplen, r2) := takeDigits ip 0 r in
        match iplen, fplen with
        | O, O => None
        | _, _ => finish m fplen r2
        end
    | _ =>
        match iplen with
        | O => None
        | S _ => finish ip O r1
        end
    end.

(** StrDecimalLiteral at the head of [s]. *)
Definition decimalLiteral (s : string) : option (number * string) :=
  match s with
  | String "+" r => unsignedDecimal r
  | String "-" r =>
      match unsignedDecimal r with
      | Some (n, rest) => Some (negate n, rest)
      | None => None
      end
  | _ => unsignedDecimal s
  end.

(** [Number(s)]: StringToNumber. *)
Definition ofString (s : string) : number :=
  match JsString.trim s with
  | EmptyString => ofZ 0
  | String "0" (String "x" r) | String "0" (String "X" r) => radixLiteral 16 hexValue r
  | String "0" (String "b" r) | String "0" (String "B" r) => radixLiteral 2 binValue r
  | String "0" (String "o" r) | String "0" (String "O" r) => radixLiteral 8 octValue r
  | t => match decimalLiteral t with
         | Some (n, EmptyString) => n
         | _ => NaN
         end
  end.

(** [parseFloat(s)] *)
Definition parseFloat (s : string) : number :=
  match decimalLiteral (JsString.trimStart s) with
  | Some (n, _) => n
  | None => NaN
  end.

End JsNumber.

(** ** Dates *)

(** The time value of a [Date] object; [None] is the invalid date. *)
Definition Date : Type := option Z.

Module JsDate.

Definition msPerDay : Z := 86400000.

(** Day number of a proleptic Gregorian date, day 0 being 1970-01-01. *)
Definition daysFromCivil (y m d : Z) : Z :=
  let y' := if m <=? 2 then y - 1 else y in
  let era := y' / 400 in
  let yoe := y' - era * 400 in
  let doy := (153 * (if 2 <? m then m - 3 else m + 9) + 2) / 5 + d - 1 in
  let doe := yoe * 365 + yoe / 4 - yoe / 100 + doy in
  era * 146097 + doe - 719468.

(** Year, month (1 to 12) and day of the month of a day number. *)
Definition civilFromDays (z : Z) : Z * Z * Z :=
  let z' := z + 719468 in
  let era := z' / 146097 in
  let doe := z' - era * 146097 in
  let yoe := (doe - doe / 1460 + doe / 36524 - doe / 146096) / 365 in
  let doy := doe - (365 * yoe + yoe / 4 - yoe / 100) in
  let mp := (5 * doy + 2) / 153 in
  let d := doy - (153 * mp + 2) / 5 + 1 in
  let m := if mp <? 10 then mp + 3 else mp - 9 in
  ((yoe + era * 400) + (if m <=? 2 then 1 else 0), m, d).

Definition Day (t : Z) : Z := t / msPerDay.

Definition TimeClip (t : Z) : Date :=
  if Z.abs t <=? 8640000000000000 then Some t else None.

Definition MakeDay (year month date : number) : option Z :=
  match year, month, date with
  | Finite y, Finite m, Finite dt =>
      let y := JsNumber.truncQ y in
      let m := JsNumber.truncQ m in
      let dt := JsNumber.truncQ dt in
      let ym := y + m / 12 in
      let mn := m mod 12 in
      let first := daysFromCivil ym (mn + 1) 1 in
      match TimeClip (first * msPerDay) with
      | Some _ => Some (first + dt - 1)
      | None => None
      end
  | _, _, _ => None
  end.

(** [Date.UTC(year, month, date)] *)
Definition UTC (year month date : number) : Date :=
  let yr :=
    match year with
    | Finite q =>
        let yi := JsNumber.truncQ q in
        if (0 <=? yi) && (yi <=? 99) then JsNumber.ofZ (1900 + yi) else year
    | _ => year
    end in
  match MakeDay yr month date with
  | Some day => TimeClip (day * msPerDay)
  | None => None
  end.

Definition getUTCFullYear (d : Date) : option Z :=
  match d with Some t => Some (fst (fst (civilFromDays (Day t)))) | None => None end.

(** Zero-based, as in JavaScript. *)
Definition getUTCMonth (d : Date) : option Z :=
  match d with Some t => Some (snd (fst (civilFromDays (Day t))) - 1) | None => None end.

Definition getUTCDate (d : Date) : option Z :=
  match d with Some t => Some (snd (civilFromDays (Day t))) | None => None end.

(** 0 is Sunday. *)
Definition getUTCDay (d : Date) : option Z :=
  match d with Some t => Some ((Day t + 4) mod 7) | None => None end.

Definition daysInMonth (y m : Z) : Z :=
  daysFromCivil (if m =? 12 then y + 1 else y) (if m =? 12 then 1 else m + 1) 1
  - daysFromCivil y m 1.

(** *** The date-time string format

    [YYYY-MM-DD], [YYYY-MM-DDTHH:mm] and [YYYY-MM-DDTHH:mm:ss], the last
    two with an optional [Z].  Without [Z] a date-only form is a UTC time
    and a date-time form is a local time. *)

Fixpoint digitsN (n : nat) (acc : Z) (s : string) : option (Z * string) :=
  match n with
  | O => Some (acc, s)
  | S n' =>
      match s with
      | String c r =>
          match JsNumber.digitValue c with
          | Some d => digitsN n' (10 * acc + d) r
          | None => None
          end
      | EmptyString => None
      end
  end.

Definition expect (c : ascii) (s : string) : option string :=
  match s with
  | String c' r => if Ascii.eqb c c' then Some r else None
  | EmptyString => None
  end.

Record IsoFields : Type := mkIso {
  isoYear : Z; isoMonth : Z; isoDay : Z;
  isoTime : option Z;      (* milliseconds within the day *)
  isoUTC : bool            (* date-only, or suffixed by Z *)
}.

Definition isoDatePart (s : string) : option (Z * Z * Z * string) :=
  '(y, s) ← digitsN 4 0 s;
  s ← expect "-" s;
  '(m, s) ← digitsN 2 0 s;
  s ← expect "-" s;
  '(d, s) ← digitsN 2 0 s;
  if (1 <=? m) && (m <=? 12) && (1 <=? d) && (d <=? daysInMonth y m)
  then Some (y, m, d, s) else None.

Definition isoTimePart (s : string) : option (Z * string) :=
  '(hh, s) ← digitsN 2 0 s;
  s ← expect ":" s;
  '(mm, s) ← digitsN 2 0 s;
  let '(ss, s) :=
    match expect ":" s ≫= digitsN 2 0 with
    | Some (ss, s') => (ss, s')
    | None => (0, s)
    end in
  if (hh <=? 23) && (mm <=? 59) && (ss <=? 59)
  then Some ((hh * 60 + mm) * 60000 + ss * 1000, s) else None.

Definition isoFields (s : string) : option IsoFields :=
  '(y, m, d, s) ← isoDatePart s;
  match s with
  | EmptyString => Some (mkIso y m d None true)
  | String "T" s =>
      '(ms, s) ← isoTimePart s;
      match s with
      | EmptyString => Some (mkIso y m d (Some ms) false)
      | String "Z" EmptyString => Some (mkIso y m d (Some ms) true)
      | _ => None
      end
  | _ => None
  end.

End JsDate.

(** ** The host

    What the language leaves to the implementation, and the spreadsheet
    library's date-code routine.  The routines that work in local time
    take the offset of the zone as their first argument, so that one host
    can be run in another zone. *)
Record Host : Type := mkHost {
  (** offset of local time from UTC, in milliseconds *)
  LocalTZA : Z;
  (** [Date.parse] on the strings that [JsDate.isoFields] does not read,
      in the zone of the given offset *)
  parseLegacy : Z -> string -> Date;
  (** [toLocaleDateString('en-US', {year, month: 'short', day})] of a
      valid date, in the zone of the given offset *)
  toLocaleDateString : Z -> Z -> string;
  (** [Number::toString] of a finite value that is not an integer below
      10^21 in size *)
  fractionToString : Q -> string;
  (** [Date.prototype.toString], in the zone of the given offset *)
  dateToString : Z -> Date -> string;
  (** [XLSX.SSF.parse_date_code]: year, month and day of a serial number *)
  parse_date_code : number -> option (Z * Z * Z);
  (** [String.prototype.localeCompare] *)
  localeCompare : string -> string -> Z
}.

Definition withLocalTZA (h : Host) (tza : Z) : Host :=
  mkHost tza (parseLegacy h) (toLocaleDateString h) (fractionToString h)
         (dateToString h) (parse_date_code h) (localeCompare h).

(** [Date.parse(s)] *)
Definition Date_parse (h : Host) (s : string) : Date :=
  match JsDate.isoFields s with
  | Some f =>
      let day := JsDate.daysFromCivil (JsDate.isoYear f) (JsDate.isoMonth f) (JsDate.isoDay f) in
      let t := day * JsDate.msPerDay + default 0 (JsDate.isoTime f) in
      JsDate.TimeClip (if JsDate.isoUTC f then t else t - LocalTZA h)
  | None => parseLegacy h (LocalTZA h) s
  end.

(** ** Cells, arrays, sets and loops *)

(** A value found in a decoded grid. *)
Inductive Cell : Type :=
| CUndefined
| CNull
| CString (s : string)
| CNumber (n : number)
| CBoolean (b : bool)
| CDate (d : Date).

Definition Grid : Type := list (list Cell).

Definition ToBoolean (v : Cell) : bool :=
  match v with
  | CUndefined | CNull => false
  | CString s => negb (JsString.isEmpty s)
  | CNumber n => JsNumber.truthy n
  | CBoolean b => b
  | CDate _ => true
  end.

(** [String(v)] *)
Definition ToString (h : Host) (v : Cell) : string :=
  match v with
  | CUndefined => "undefined"
  | CNull => "null"
  | CString s => s
  | CNumber NaN => "NaN"
  | CNumber (Infinity false) => "Infinity"
  | CNumber (Infinity true) => "-Infinity"
  | CNumber (Finite q) =>
      let r := Qred q in
      if (Z.pos (Qden r) =? 1) && (Z.abs (Qnum r) <? 10 ^ 21)
      then JsString.ofZ (Qnum r) else fractionToString h q
  | CBoolean true => "true"
  | CBoolean false => "false"
  | CDate d => dateToString h (LocalTZA h) d
  end.

(** [v === s] for a string [s] *)
Definition strictEqString (v : Cell) (s : string) : bool :=
  match v with CString s' => String.eqb s' s | _ => false end.

(** [a || b] *)
Definition orElse (a b : Cell) : Cell := if ToBoolean a then a else b.

(** [row[i]] *)
Definition cellAt (row : list Cell) (i : nat) : Cell := default CUndefined (row !! i).

(** [data[r]?.[c]] *)
Definition cellAt2 (data : Grid) (r c : nat) : Cell :=
  match data !! r with Some row => cellAt row c | None => CUndefined end.

(** [for (let i = lo; i < hi; i++) body], threading the state [s]. *)
Definition forLoop {S : Type} (lo hi : nat) (body : nat -> S -> S) (s : S) : S :=
  foldl (fun s i => body i s) s (seq lo (hi - lo)%nat).

(** A [Set] of strings, in insertion order. *)
Definition Set_add (w : string) (s : list string) : list string :=
  if bool_decide (w ∈ s) then s else (s ++ [w])%list.

Fixpoint sortInsert {A : Type} (cmp : A -> A -> Z) (x : A) (l : list A) : list A :=
  match l with
  | [] => [x]
  | y :: l' => if cmp x y <=? 0 then x :: l else y :: sortInsert cmp x l'
  end.

(** [Array.prototype.sort]: a stable sort. *)
Definition Array_sort {A : Type} (cmp : A -> A -> Z) (l : list A) : list A :=
  foldr (sortInsert cmp) [] l.

(** What a call does: it returns or it throws. *)
Inductive JsError : Type := TypeError.

Inductive Outcome (A : Type) : Type :=
| Returned (a : A)
| Thrown (e : JsError).
Arguments Returned {A} a.
Arguments Thrown {A} e.

(** ** The Word-Filter tool *)

Module WordFilter.

Definition BLANK : string := "__BLANK__".

Definition isDefaultExcluded (word : string) : bool :=
  if String.eqb word "__BLANK__" then true
  else if negb (JsNumber.isNaN (JsNumber.ofString word))
          && negb (String.eqb (JsString.trim word) "") then true
  else if JsString.startsWith (JsString.toLowerCase word) "dsp initiated work" then true
  else false.

(** The inclusion flag a word gets at first sight,
    [!isDefaultExcluded(word)]. *)
Definition classifyDefault (word : string) : bool := negb (isDefaultExcluded word).

(** A cell object of a worksheet, as the spreadsheet library holds it:
    the value [v] of the cell and the text [w] that its number format
    gives the value. *)
Record CellObject : Type := mkCellObject {
  cell_v : Cell;
  cell_w : string
}.

(** A worksheet: the rows of its range; [None] is an address without a
    cell object. *)
Definition Sheet : Type := list (list (option CellObject)).

(** What [XLSX.utils.sheet_to_json] stores for one address, after the
    library's documentation of the option [raw]: the value of the cell
    object when [raw] is set, its formatted text otherwise; an address
    without a cell object is left as a hole. *)
Definition sheetCellValue (raw : bool) (cell : option CellObject) : Cell :=
  match cell with
  | Some c => if raw then cell_v c else CString (cell_w c)
  | None => CUndefined
  end.

(** One row under [header: 1]: an array indexed by column, which ends at
    the last cell object of the row. *)
Fixpoint sheetRow (raw : bool) (row : list (option CellObject)) : list Cell :=
  match row with
  | [] => []
  | cell :: rest =>
      match sheetRow raw rest, cell with
      | [], None => []
      | cells, _ => sheetCellValue raw cell :: cells
      end
  end.

(** [XLSX.utils.sheet_to_json(worksheet, {header: 1, raw})] *)
Definition sheet_to_json (worksheet : Sheet) (raw : bool) : Grid :=
  map (sheetRow raw) worksheet.

(** [parseExcelFile], from the first worksheet of the workbook on: the
    grid is asked for with [raw: false]. *)
Definition parseExcelFile (worksheet : Sheet) : Grid :=
  sheet_to_json worksheet false.

Definition extractFileInfo (jsonData : Grid) : Cell * Cell :=
  (orElse (cellAt2 jsonData 1 1) (CString "Unknown Company"),
   orElse (cellAt2 jsonData 1 2) (CString "Unknown Station")).

Record CountEntry : Type := mkCount {
  date : string;
  rawDate : Cell;
  column : nat;
  count : nat
}.



(** [wordFilterState[word] !== false]: what the counter and the
    check boxes read. *)
Definition isIncluded (wordFilterState : gmap string bool) (word : string) : bool :=
  negb (bool_decide (wordFilterState !! word = Some false)).

Definition toggleWord (prev : gmap string bool) (word : string) : gmap string bool :=
  <[word := match prev !! word with None => false | Some b => negb b end]> prev.

(** [newWordState[word] = status].  [__proto__] is an accessor of
    [Object.prototype]: as long as the object has no property of its own
    under that name, the assignment calls the inherited setter, which
    ignores a boolean, and nothing is stored. *)
Definition assignFlag (newWordState : gmap string bool) (word : string) (status : bool)
  : gmap string bool :=
  if String.eqb word "__proto__" && bool_decide (newWordState !! word = None)
  then newWordState
  else <[word := status]> newWordState.

Definition setAllVisible (wordFilterState : gmap string bool) (uniqueWords : list string)
    (searchTerm : string) (status : bool) : gmap string bool :=
  foldl (fun newWordState word =>
           if String.eqb searchTerm ""
              || JsString.includes word (JsString.toLowerCase searchTerm)
           then assignFlag newWordState word status else newWordState)
        wordFilterState uniqueWords.

(** The updater handed to [setWordFilterState] in [processAndAddFiles]. *)
Definition initFilterState (prevFilter : gmap string bool) (sortedWords : list string)
  : gmap string bool :=
  foldl (fun newState word =>
           match newState !! word with
           | None => <[word := negb (isDefaultExcluded word)]> newState
           | Some _ => newState
           end)
        prevFilter sortedWords.

Section WithHost.
Context (h : Host).

(** [String(cellValue || '').trim()], the blank cell renamed: the
    fragment [extractUniqueWords] and [processExcelData] share. *)
Definition cellWord (cellValue : Cell) : string :=
  let word := JsString.trim (ToString h (orElse cellValue (CString ""))) in
  if String.eqb word "" then "__BLANK__" else word.

Definition extractUniqueWords (jsonData : Grid) : list string :=
  if (length jsonData <? 4)%nat then []
  else
    let width := match jsonData !! 3%nat with Some row => length row | None => O end in
    let uniqueWords :=
      forLoop 2 width (fun colIndex uniqueWords =>
        forLoop 4 (length jsonData) (fun rowIndex uniqueWords =>
          let cellValue := cellAt2 jsonData rowIndex colIndex in
          Set_add (cellWord cellValue) uniqueWords) uniqueWords) [] in
    Array_sort JsString.compareCodeUnits uniqueWords.

(** [new Date(v)] *)
Definition Date_new (v : Cell) : Date :=
  match v with
  | CDate d => d
  | CString s => Date_parse h s
  | CNumber (Finite q) => JsDate.TimeClip (JsNumber.truncQ q)
  | CNumber _ => None
  | CBoolean b => Some (if b then 1 else 0)
  | CNull => Some 0
  | CUndefined => None
  end.

Definition formatDate (dateValue : Cell) : string :=
  if negb (ToBoolean dateValue) then "N/A"
  else
    match dateValue with
    | CDate (Some t) => toLocaleDateString h (LocalTZA h) t
    | _ =>
        match Date_new dateValue with
        | Some t => toLocaleDateString h (LocalTZA h) t
        | None => ToString h dateValue
        end
    end.

(** The inner loop of [processExcelData]: the count of one column. *)
Definition countColumn (jsonData : Grid) (wordFilterState : gmap string bool)
    (colIndex : nat) : nat :=
  forLoop 4 (length jsonData) (fun rowIndex count =>
    let cellValue := cellAt2 jsonData rowIndex colIndex in
    let word := cellWord cellValue in
    let isAllowed := isIncluded wordFilterState word in
    if isAllowed then S count else count) O.

Definition processExcelData (jsonData : Grid) (wordFilterState : gmap string bool)
  : list CountEntry :=
  if (length jsonData <? 4)%nat then []
  else
    let dateRow := default [] (jsonData !! 3%nat) in
    forLoop 2 (length dateRow) (fun colIndex (counts : list CountEntry) =>
      let dateValue := cellAt dateRow colIndex in
      if ToBoolean dateValue then
        let count := countColumn jsonData wordFilterState colIndex in
        (counts ++ [mkCount (formatDate dateValue) dateValue colIndex count])%list
      else counts) [].


End WithHost.

End WordFilter.

(** ** The Metric compiler *)

Module Metric.

Record ProcessedRow : Type := mkRow {
  Date_ : string;
  Week_ : number;
  Capacity_reliability_score : number;
  Completed_routes : option number;
  Amazon_paid_cancels : option number;
  DSP_dropped_routes : option number;
  Reliability_target : option number;
  Route_target : option number;
  Flex_up_route_target : option number;
  Final_scheduled : option number;
  DSP_available_capacity : option number
}.

(** [None] is [null]. *)
Definition parseNumber (value : Cell) : option number :=
  match value with
  | CNull | CUndefined => None
  | CNumber n => Some n
  | CString s =>
      if String.eqb s "-" || String.eqb s "" then None
      else
        let cleanValue := JsString.trim (JsString.removeFirst "%" s) in
        let parsed := JsNumber.parseFloat cleanValue in
        if negb (JsNumber.isNaN parsed) then
          if JsString.includes s "%" then Some (JsNumber.div100 parsed)
          else Some parsed
        else None
  | CBoolean _ | CDate _ => None
  end.

(** [parseNumber(value) || 0] *)
Definition parseNumberOrZero (value : Cell) : number :=
  match parseNumber value with
  | Some n => if JsNumber.truthy n then n else JsNumber.ofZ 0
  | None => JsNumber.ofZ 0
  end.

(** Text of a number that is an integer or [NaN]. *)
Definition integerText (n : option Z) : string :=
  match n with Some z => JsString.ofZ z | None => "NaN" end.

Definition toIsoDateString (date : Date) : string :=
  let year := JsDate.getUTCFullYear date in
  let month :=
    JsString.padStart2 (integerText (Z.succ <$> JsDate.getUTCMonth date)) in
  let day := JsString.padStart2 (integerText (JsDate.getUTCDate date)) in
  integerText year ++ "-" ++ month ++ "-" ++ day.

Definition getWeekNumber (dateStr : string) : number :=
  let parts := map JsNumber.ofString (JsString.split "-" dateStr) in
  let year := default NaN (parts !! 0%nat) in
  let month := default NaN (parts !! 1%nat) in
  let day := default NaN (parts !! 2%nat) in
  let current := JsDate.UTC year (JsNumber.pred month) day in
  let jan1 := JsDate.UTC year (JsNumber.ofZ 0) (JsNumber.ofZ 1) in
  match current, jan1, JsDate.getUTCDay jan1 with
  | Some c, Some j, Some dayOfWeekJan1 =>
      let dayOfYear := (inject_Z (c - j) / inject_Z 86400000 + 1)%Q in
      Finite (inject_Z (Qceiling ((dayOfYear + inject_Z dayOfWeekJan1) / 7)))
  | _, _, _ => NaN
  end.

(** [row && dataColIndex < row.length ? row[dataColIndex] : absent] for
    [row = data[r]] *)
Definition metricCell (data : Grid) (r dataColIndex : nat) : option Cell :=
  match data !! r with
  | Some row =>
      if (dataColIndex <? length row)%nat then Some (cellAt row dataColIndex) else None
  | None => None
  end.

(** *** The encoder *)

Inductive SheetValue : Type :=
| SText (s : string)
| SNumber (n : number).

Record SheetCell : Type := mkCell {
  cell_v : SheetValue;
  cell_t : string;
  cell_z : option string
}.

(** A worksheet: its rows of cells, a missing cell being [None], and
    its column widths. *)
Record Worksheet : Type := mkSheet {
  sheetName : string;
  sheetRows : list (list (option SheetCell));
  sheetCols : list Z
}.

Definition textCell (s : string) : option SheetCell := Some (mkCell (SText s) "s" None).
Definition numberCell (n : number) : option SheetCell := Some (mkCell (SNumber n) "n" None).
Definition nullableCell (n : option number) : option SheetCell := n ≫= numberCell.

Definition fieldNames : list string :=
  ["Date"; "Week#"; "Capacity reliability score"; "Completed routes";
   "Amazon paid cancels"; "DSP dropped routes"; "Reliability target";
   "Route target"; "Flex-up route target"; "Final scheduled";
   "DSP available capacity"].

(** The sheet row [XLSX.utils.json_to_sheet] makes of one object of
    [worksheetData]: a text cell, number cells, no cell for [null]. *)
Definition rowCells (row : ProcessedRow) : list (option SheetCell) :=
  [textCell (Date_ row); numberCell (Week_ row);
   numberCell (Capacity_reliability_score row);
   nullableCell (Completed_routes row); nullableCell (Amazon_paid_cancels row);
   nullableCell (DSP_dropped_routes row); nullableCell (Reliability_target row);
   nullableCell (Route_target row); nullableCell (Flex_up_route_target row);
   nullableCell (Final_scheduled row); nullableCell (DSP_available_capacity row)].

(** [XLSX.utils.json_to_sheet]: a header row of the keys, then a row
    per object; an empty array gives an empty sheet. *)
Definition json_to_sheet (worksheetData : list ProcessedRow)
  : list (list (option SheetCell)) :=
  match worksheetData with
  | [] => []
  | _ => map textCell fieldNames :: map rowCells worksheetData
  end.

(** The formatting loop, over the range of the sheet ([A1] when the sheet
    is empty): in every row but the first, the cell of column 2, when there
    is one, gets the percentage format. *)
Definition formatCells (rows : list (list (option SheetCell)))
  : list (list (option SheetCell)) :=
  let lastRow := (length rows - 1)%nat in
  let lastCol := (length (default [] (rows !! 0%nat)) - 1)%nat in
  forLoop 1 (lastRow + 2) (fun R rows =>
    forLoop 0 (lastCol + 1) (fun C rows =>
      match rows !! R ≫= (fun row => row !! C) with
      | Some (Some cell) =>
          if (C =? 2)%nat && (0 <? R)%nat then
            alter (fun row => <[C := Some (mkCell (cell_v cell) "n" (Some "0.0%"))]> row)
                  R rows
          else rows
      | _ => rows
      end) rows) rows.

Definition columnWidths : list Z := [15; 8; 22; 18; 20; 18; 18; 14; 20; 16; 22].

Section WithHost.
Context (h : Host).

(** The body of the header loop: the [Date] object a header cell
    gives, [None] when the cell is skipped. *)
Definition headerDate (value : Cell) : option Date :=
  if ToBoolean value && negb (strictEqString value "Total") then
    match value with
    | CDate d => Some d
    | CString s =>
        match Date_parse h s with
        | Some t => Some (Some t)
        | None => None
        end
    | CNumber n =>
        match parse_date_code h n with
        | Some (y, m, d) =>
            Some (JsDate.UTC (JsNumber.ofZ y) (JsNumber.ofZ (m - 1)) (JsNumber.ofZ d))
        | None => None
        end
    | _ => None
    end
  else None.

(** The first loop of [processExcelFile]: the array [dates]. *)
Definition collectDates (dateRow : list Cell) : list string :=
  forLoop 1 (length dateRow) (fun col (dates : list string) =>
    let value := cellAt dateRow col in
    match headerDate value with
    | Some dateObj => (dates ++ [toIsoDateString dateObj])%list
    | None => dates
    end) [].

(** The row pushed by the second loop for [dates[dateIdx]]. *)
Definition buildRow (data : Grid) (dateIdx : nat) (dateStr : string) : ProcessedRow :=
  let weekNumber := getWeekNumber dateStr in
  let dataColIndex := (dateIdx + 1)%nat in
  mkRow dateStr weekNumber
    (match metricCell data 1 dataColIndex with
     | Some v => parseNumberOrZero v
     | None => JsNumber.ofZ 0
     end)
    (metricCell data 2 dataColIndex ≫= parseNumber)
    (metricCell data 3 dataColIndex ≫= parseNumber)
    (metricCell data 4 dataColIndex ≫= parseNumber)
    (metricCell data 5 dataColIndex ≫= parseNumber)
    (metricCell data 6 dataColIndex ≫= parseNumber)
    (metricCell data 7 dataColIndex ≫= parseNumber)
    (metricCell data 8 dataColIndex ≫= parseNumber)
    (metricCell data 9 dataColIndex ≫= parseNumber).

(** [processExcelFile] on the decoded grid [data]. *)
Definition processExcelFile (data : Grid) : Outcome (list ProcessedRow) :=
  match data !! 0%nat with
  | None => Thrown TypeError
  | Some dateRow =>
      let dates := collectDates dateRow in
      Returned
        (forLoop 0 (length dates) (fun dateIdx (processedRows : list ProcessedRow) =>
           let dateStr := default "" (dates !! dateIdx) in
           (processedRows ++ [buildRow data dateIdx dateStr])%list) [])
  end.

(** *** The compiler *)

Definition compareRows (a b : ProcessedRow) : Z := localeCompare h (Date_ a) (Date_ b).

Section Writer.
(** [XLSX.write(workbook, {bookType: 'xlsx', ...})] *)
Context {ArrayBuffer : Type} (XLSX_write : list Worksheet -> ArrayBuffer).

(** [generateCompiledExcel(allRows)].  The array is passed by
    reference and sorted in place: the first component is what the
    caller's array holds after the call, the second the buffer
    returned. *)
Definition generateCompiledExcel (allRows : list ProcessedRow)
  : list ProcessedRow * ArrayBuffer :=
  let allRows := Array_sort compareRows allRows in
  let worksheet :=
    mkSheet "Compiled Data" (formatCells (json_to_sheet allRows)) columnWidths in
  (allRows, XLSX_write [worksheet]).

(** [compileFiles] on the decoded grids of the queued files: the rows
    shown in the preview and the buffer offered for download, or
    [None] when nothing was extracted.  A file whose processing
    throws is reported and skipped. *)
Definition compileFiles (decoded : list Grid)
  : option (list ProcessedRow * ArrayBuffer) :=
  let allRows :=
    foldl (fun (allRows : list ProcessedRow) data =>
             match processExcelFile data with
             | Returned rows => (allRows ++ rows)%list
             | Thrown _ => allRows
             end) [] decoded in
  match allRows with
  | [] => None
  | _ =>
      let allRows := Array_sort compareRows allRows in
      Some (generateCompiledExcel allRows)
  end.

End Writer.

End WithHost.

End Metric.


(** ** A host to run the definitions on

    The UTC zone, no legacy date format, serial numbers counted from
    1899-12-30, code-unit collation. *)
Definition plainHost : Host :=
  mkHost 0
    (fun _ _ => None)
    (fun _ t => JsString.ofZ t)
    (fun q => JsString.ofZ (Qnum q) ++ "/" ++ JsString.ofZ (Z.pos (Qden q)))
    (fun _ d => match d with Some t => JsString.ofZ t | None => "Invalid Date" end)
    (fun n =>
       match n with
       | Finite q =>
           let serial := Qfloor q in
           if (0 <=? serial) && (serial <=? 2958465)
           then Some (JsDate.civilFromDays (serial - 25569)) else None
       | _ => None
       end)
    JsString.compareCodeUnits.

(** An array is in order for [cmp] when no element is greater than the
    next one. *)
Fixpoint inOrder {A : Type} (cmp : A -> A -> Z) (l : list A) : bool :=
  match l with
  | [] => true
  | a :: t =>
      match t with
      | [] => true
      | b :: _ => (cmp a b <=? 0) && inOrder cmp t
      end
  end.

(** The width of the header row of a Word-Filter grid. *)
Definition headerWidth (jsonData : Grid) : nat :=
  match jsonData !! 3%nat with Some row => length row | None => O end.

(** A Word-Filter grid on which the inventory and the counts part: the
    header of column 2 is missing, the cell below it is not. *)
Definition headerlessColumnGrid : Grid :=
  [ []; [CString "Roster"; CString "Acme"; CString "DXX1"]; [];
    [CString "Name"; CString "ID"; CUndefined; CString "1/5/2024"];
    [CString "Ann"; CString "7"; CString "Ghost"; CString "A"] ].

(** 2024-01-05 and 2024-01-06, at midnight UTC. *)
Definition jan5 : Date := Some 1704412800000.
Definition jan6 : Date := Some 1704499200000.

(** A Metric grid whose first header column is the total. *)
Definition totalFirstGrid : Grid :=
  [ [CString "Metric"; CString "Total"; CDate jan5; CDate jan6];
    [CString "Capacity reliability score"; CString "98%"; CString "90%"; CString "80%"];
    [CString "Completed routes"; CNumber (JsNumber.ofZ 30); CNumber (JsNumber.ofZ 10);
     CNumber (JsNumber.ofZ 20)] ].

(** A Metric header whose date is a local date-time. *)
Definition localMidnightHeader : list Cell :=
  [CString "Metric"; CString "2024-01-05T00:00:00"].

(** The date a header cell gives, when it gives one. *)
Definition headerText (h : Host) (value : Cell) : option string :=
  Metric.toIsoDateString <$> Metric.headerDate h value.

(** The row of a date when no metric can be read. *)
Definition defaultRow (dateStr : string) : Metric.ProcessedRow :=
  Metric.mkRow dateStr (Metric.getWeekNumber dateStr) (JsNumber.ofZ 0)
               None None None None None None None None.

(** The sheet made of [allRows], as [generateCompiledExcel] formats it. *)
Definition compiledSheet (allRows : list Metric.ProcessedRow) : Metric.Worksheet :=
  Metric.mkSheet "Compiled Data"
    (Metric.formatCells (Metric.json_to_sheet allRows)) Metric.columnWidths.

(** ** More of the two pages *)

(** [filteredWords] of the filter dialog: the words listed for a search
    term. *)
Definition filteredWords (uniqueWords : list string) (searchTerm : string) : list string :=
  filter (fun word => JsString.includes word (JsString.toLowerCase searchTerm) = true)
         uniqueWords.

(** The data rows of a Word-Filter grid: row 4 and below. *)
Definition dataRows (jsonData : Grid) : list nat := seq 4 (length jsonData - 4).

(** A comparator is total when, of two elements, one is not greater than
    the other. *)
Definition totalOrder {A : Type} (cmp : A -> A -> Z) : Prop :=
  forall a b : A, 0 < cmp a b -> cmp b a <= 0.

(** The rows [compileFiles] gathers before sorting: those of the grids
    whose processing returns, in the order of the files. *)
Definition extractedRows (h : Host) (decoded : list Grid) : list Metric.ProcessedRow :=
  concat (map (fun data =>
                 match Metric.processExcelFile h data with
                 | Returned rows => rows
                 | Thrown _ => []
                 end) decoded).

(** The eight metrics of a row that may be [null], in the order of the
    fields. *)
Definition nullableMetrics (row : Metric.ProcessedRow) : list (option number) :=
  [Metric.Completed_routes row; Metric.Amazon_paid_cancels row;
   Metric.DSP_dropped_routes row; Metric.Reliability_target row;
   Metric.Route_target row; Metric.Flex_up_route_target row;
   Metric.Final_scheduled row; Metric.DSP_available_capacity row].

(** ** The calendar behind the day numbers *)

(** Start of a year of the 400-year cycle, in days from the start of the
    cycle; the years of the cycle run from 1 March. *)
Definition yearStart (yoe : Z) : Z := 365 * yoe + yoe / 4 - yoe / 100.

Definition yearLength (yoe : Z) : Z :=
  if yoe =? 399 then 366 else yearStart (yoe + 1) - yearStart yoe.

(** Months counted from March. *)
Definition monthIndex (m : Z) : Z := if 2 <? m then m - 3 else m + 9.

Definition monthStart (mp : Z) : Z := (153 * mp + 2) / 5.

Definition yearOfEra (doe : Z) : Z :=
  (doe - doe / 1460 + doe / 36524 - doe / 146096) / 365.

(** A date of the calendar: a month from 1 to 12 and a day of that
    month. *)
Definition validDate (y m d : Z) : Prop :=
  1 <= m <= 12 /\ 1 <= d <= JsDate.daysInMonth y m.

(** The text [toIsoDateString] gives for the date [y]-[m]-[d]. *)
Definition isoText (y m d : Z) : string :=
  JsString.ofZ y ++ "-" ++ JsString.padStart2 (JsString.ofZ m)
  ++ "-" ++ JsString.padStart2 (JsString.ofZ d).

(** The week of a date, weeks starting on Sunday and week 1 holding
    1 January. *)
Definition weekOf (y m d : Z) : Z :=
  let jan1 := JsDate.daysFromCivil y 1 1 in
  let dayOfYear := JsDate.daysFromCivil y m d - jan1 + 1 in
  let dayOfWeekJan1 := (jan1 + 4) mod 7 in
  (dayOfYear + dayOfWeekJan1 + 6) / 7.

(** [formatDate] of the preview table: [month/day/year] of a date text.
    A part that the text lacks reads [undefined]. *)
Definition displayDate (dateStr : string) : string :=
  let parts := JsString.split "-" dateStr in
  let year := default "undefined" (parts !! 0%nat) in
  let month := default "undefined" (parts !! 1%nat) in
  let day := default "undefined" (parts !! 2%nat) in
  month ++ "/" ++ day ++ "/" ++ year.

(** ** Checks over a range of integers *)

Fixpoint forallRange (f : Z -> bool) (n : nat) (z : Z) : bool :=
  match n with
  | O => true
  | S n' => f z && forallRange f n' (z + 1)
  end.

Definition numberEqb (a b : number) : bool :=
  match a, b with
  | NaN, NaN => true
  | Infinity s, Infinity s' => Bool.eqb s s'
  | Finite p, Finite q => (Qnum p =? Qnum q) && (Z.pos (Qden p) =? Z.pos (Qden q))
  | _, _ => false
  end.

Fixpoint noDash (s : string) : bool :=
  match s with
  | EmptyString => true
  | String c r => negb (Ascii.eqb c "-") && noDash r
  end.

(** The text of a number from 0 to 9999 has no dash, is not empty, does
    not begin with [T], and reads back as the number. *)
Definition yearTextCheck (y : Z) : bool :=
  let s := JsString.ofZ y in
  noDash s && negb (JsString.isEmpty s) && negb (JsString.startsWith s "T")
  && numberEqb (JsNumber.ofString s) (JsNumber.ofZ y).

(** The text of a number from 1000 to 9999 is four digits. *)
Definition fourDigitCheck (y : Z) : bool :=
  match JsDate.digitsN 4 0 (JsString.ofZ y) with
  | Some (v, EmptyString) => v =? y
  | _ => false
  end.

(** The padded text of a number from 0 to 99 is two digits without a
    dash that read back as the number. *)
Definition twoDigitCheck (n : Z) : bool :=
  let s := JsString.padStart2 (JsString.ofZ n) in
  noDash s && numberEqb (JsNumber.ofString s) (JsNumber.ofZ n)
  && match JsDate.digitsN 2 0 s with
     | Some (v, EmptyString) => v =? n
     | _ => false
     end.

(** ** The compiled sheet, cell by cell *)

(** The percentage format put on the cell of column 2 of a sheet row,
    when the row has one. *)
Definition formatScore (row : list (option Metric.SheetCell)) : list (option Metric.SheetCell) :=
  match row !! 2%nat with
  | Some (Some cell) =>
      <[2%nat := Some (Metric.mkCell (Metric.cell_v cell) "n" (Some "0.0%"))]> row
  | _ => row
  end.

(** The cells of the sheet row of a metric row, once formatted. *)
Definition formattedCells (row : Metric.ProcessedRow) : list (option Metric.SheetCell) :=
  [Metric.textCell (Metric.Date_ row); Metric.numberCell (Metric.Week_ row);
   Some (Metric.mkCell (Metric.SNumber (Metric.Capacity_reliability_score row)) "n"
                       (Some "0.0%"));
   Metric.nullableCell (Metric.Completed_routes row);
   Metric.nullableCell (Metric.Amazon_paid_cancels row);
   Metric.nullableCell (Metric.DSP_dropped_routes row);
   Metric.nullableCell (Metric.Reliability_target row);
   Metric.nullableCell (Metric.Route_target row);
   Metric.nullableCell (Metric.Flex_up_route_target row);
   Metric.nullableCell (Metric.Final_scheduled row);
   Metric.nullableCell (Metric.DSP_available_capacity row)].

(** The text of a whole number from -999 to 9999 reads as the number,
    and followed by [%] as its hundredth. *)
Definition percentCheck (n : Z) : bool :=
  match Metric.parseNumber (CString (JsString.ofZ n ++ "%")),
        Metric.parseNumber (CString (JsString.ofZ n)) with
  | Some p, Some q =>
      numberEqb p (Finite (Qred (n # 100))) && numberEqb q (JsNumber.ofZ n)
  | _, _ => false
  end.

(** The order of two dates, by year, then month, then day. *)
Definition dateCompare (y m d y' m' d' : Z) : comparison :=
  match y ?= y' with
  | Eq => match m ?= m' with Eq => d ?= d' | c => c end
  | c => c
  end.

(** A worksheet whose only data cell holds the number 0, shown as [0]. *)
Definition zeroCell : WordFilter.CellObject :=
  WordFilter.mkCellObject (CNumber (JsNumber.ofZ 0)) "0".

Definition zeroSheet : WordFilter.Sheet :=
  [ [];
    [None; Some (WordFilter.mkCellObject (CString "Acme") "Acme");
           Some (WordFilter.mkCellObject (CString "DXX1") "DXX1")];
    [];
    [None; None; Some (WordFilter.mkCellObject (CString "2024-01-05") "2024-01-05")];
    [None; None; Some zeroCell] ].

(** The cell object at an address of a worksheet. *)
Definition sheetCell (worksheet : WordFilter.Sheet) (r c : nat) : option WordFilter.CellObject :=
  match worksheet !! r with
  | Some row => default None (row !! c)
  | None => None
  end.

(** * Properties *)

(** ** Loops, sets and sorting *)

Lemma forLoop_empty {S : Type} (lo hi : nat) (body : nat -> S -> S) (s : S) :
  (hi <= lo)%nat -> forLoop lo hi body s = s.
Proof.
  intros Hle. unfold forLoop.
  replace (hi - lo)%nat with O by lia. reflexivity.
Qed.

Lemma forLoop_step {S : Type} (lo hi : nat) (body : nat -> S -> S) (s : S) :
  (lo < hi)%nat -> forLoop lo hi body s = forLoop (Datatypes.S lo) hi body (body lo s).
Proof.
  intros Hlt. unfold forLoop.
  replace (hi - lo)%nat with (Datatypes.S (hi - Datatypes.S lo)) by lia.
  reflexivity.
Qed.

(** A loop over the indices of an array whose body only looks at the
    element is a fold over the elements. *)
Lemma forLoop_cells {S : Type} (row : list Cell) (step : Cell -> S -> S) :
  forall (lo : nat) (s : S),
    forLoop lo (length row) (fun i acc => step (cellAt row i) acc) s
    = foldl (fun acc c => step c acc) s (drop lo row).
Proof.
  intros lo s.
  remember (length row - lo)%nat as n eqn:Hn.
  revert lo s Hn. induction n as [|n IH]; intros lo s Hn.
  - rewrite forLoop_empty by lia. rewrite drop_ge by lia. reflexivity.
  - rewrite forLoop_step by lia.
    destruct (lookup_lt_is_Some_2 row lo) as [c Hc]; [lia|].
    rewrite (drop_S _ _ _ Hc). cbn [foldl].
    rewrite <- IH by lia. f_equal.
    unfold cellAt. rewrite Hc. reflexivity.
Qed.

(** Pushing the results that exist is [omap]. *)
Lemma foldl_push_omap {A B C : Type} (g : A -> option B) (k : B -> C) (l : list A) :
  forall acc : list C,
    foldl (fun acc x => match g x with Some y => (acc ++ [k y])%list | None => acc end) acc l
    = (acc ++ omap (fun x => k <$> g x) l)%list.
Proof.
  induction l as [|x l IH]; intros acc; cbn [foldl omap list_omap].
  - rewrite app_nil_r. reflexivity.
  - rewrite IH. destruct (g x) as [y|]; [|reflexivity].
    cbn. rewrite <- app_assoc. reflexivity.
Qed.

Lemma Set_add_elem (w x : string) (s : list string) :
  w ∈ Set_add x s <-> w ∈ s \/ w = x.
Proof.
  unfold Set_add. case_bool_decide as Hx.
  - split; [auto|]. intros [?| ->]; assumption.
  - rewrite elem_of_app, list_elem_of_singleton. reflexivity.
Qed.

Lemma Set_add_fold_elem {I : Type} (f : I -> string) (l : list I) :
  forall (s : list string) (w : string),
    w ∈ foldl (fun s i => Set_add (f i) s) s l <-> w ∈ s \/ exists i, i ∈ l /\ f i = w.
Proof.
  induction l as [|i l IH]; intros s w; cbn [foldl].
  - split; [auto|]. intros [?|(i & Hi & _)]; [assumption|]. inversion Hi.
  - rewrite IH, Set_add_elem. split.
    + intros [[?| ->]|(j & Hj & <-)]; [auto| |].
      * right. exists i. split; [left|reflexivity].
      * right. exists j. split; [right; assumption|reflexivity].
    + intros [?|(j & Hj & <-)]; [auto|].
      apply elem_of_cons in Hj as [->|Hj]; [auto|].
      right. exists j. auto.
Qed.

Lemma sortInsert_Permutation {A : Type} (cmp : A -> A -> Z) (x : A) (l : list A) :
  sortInsert cmp x l ≡ₚ x :: l.
Proof.
  induction l as [|y l IH]; cbn [sortInsert]; [reflexivity|].
  destruct (cmp x y <=? 0); [reflexivity|].
  rewrite IH. apply Permutation_swap.
Qed.

Lemma Array_sort_Permutation {A : Type} (cmp : A -> A -> Z) (l : list A) :
  Array_sort cmp l ≡ₚ l.
Proof.
  induction l as [|x l IH]; cbn; [reflexivity|].
  fold (Array_sort cmp l). rewrite sortInsert_Permutation, IH. reflexivity.
Qed.

(** Sorting an array that is already in order leaves it as it is. *)
Lemma Array_sort_sorted {A : Type} (cmp : A -> A -> Z) (l : list A) :
  Sorted (fun a b => cmp a b <= 0) l -> Array_sort cmp l = l.
Proof.
  induction 1 as [|x l Hl IH Hhd]; [reflexivity|].
  cbn. fold (Array_sort cmp l). rewrite IH.
  destruct Hhd as [|y l' Hxy]; [reflexivity|].
  cbn [sortInsert]. apply Z.leb_le in Hxy. rewrite Hxy. reflexivity.
Qed.

(** ** Trimming *)

Lemma trimEnd_idem (s : string) :
  JsString.trimEnd (JsString.trimEnd s) = JsString.trimEnd s.
Proof.
  induction s as [|c r IH]; [reflexivity|].
  cbn [JsString.trimEnd].
  destruct (JsString.isWhiteSpace c && JsString.isEmpty (JsString.trimEnd r)) eqn:Hc;
    [reflexivity|].
  cbn [JsString.trimEnd]. rewrite IH, Hc. reflexivity.
Qed.

Lemma trimStart_trimEnd_trimStart (s : string) :
  JsString.trimStart (JsString.trimEnd (JsString.trimStart s))
  = JsString.trimEnd (JsString.trimStart s).
Proof.
  induction s as [|c r IH]; [reflexivity|].
  cbn [JsString.trimStart].
  destruct (JsString.isWhiteSpace c) eqn:Hc; [exact IH|].
  cbn [JsString.trimEnd]. rewrite Hc. cbn [andb JsString.trimStart].
  rewrite Hc. reflexivity.
Qed.

(** A trimmed string is its own trimming. *)
Lemma trim_idem (s : string) : JsString.trim (JsString.trim s) = JsString.trim s.
Proof.
  unfold JsString.trim.
  rewrite trimStart_trimEnd_trimStart. apply trimEnd_idem.
Qed.

(** ** The filter state *)

Import WordFilter.

Lemma initFilterState_cons (prevFilter : gmap string bool) (word : string) (l : list string) :
  initFilterState prevFilter (word :: l)
  = initFilterState
      (match prevFilter !! word with
       | None => <[word := negb (isDefaultExcluded word)]> prevFilter
       | Some _ => prevFilter
       end) l.
Proof. reflexivity. Qed.

Lemma initFilterState_present (sortedWords : list string) :
  forall (prevFilter : gmap string bool) (w : string) (b : bool),
    prevFilter !! w = Some b -> initFilterState prevFilter sortedWords !! w = Some b.
Proof.
  induction sortedWords as [|x l IH]; intros prevFilter w b Hw; [exact Hw|].
  rewrite initFilterState_cons. apply IH.
  destruct (prevFilter !! x) eqn:Hx; [exact Hw|].
  rewrite lookup_insert_ne; [exact Hw|]. intros ->. congruence.
Qed.

Lemma initFilterState_fresh (sortedWords : list string) :
  forall (prevFilter : gmap string bool) (w : string),
    prevFilter !! w = None -> w ∈ sortedWords ->
    initFilterState prevFilter sortedWords !! w = Some (classifyDefault w).
Proof.
  induction sortedWords as [|x l IH]; intros prevFilter w Hw Hin; [inversion Hin|].
  rewrite initFilterState_cons.
  destruct (decide (x = w)) as [->|Hne].
  - rewrite Hw. apply initFilterState_present. apply lookup_insert_eq.
  - apply elem_of_cons in Hin as [->|Hin]; [congruence|].
    apply IH; [|exact Hin].
    destruct (prevFilter !! x); [exact Hw|].
    rewrite lookup_insert_ne by exact Hne. exact Hw.
Qed.





(** A word read from a cell is the blank sentinel or a trimmed string that
    is not empty. *)
Lemma cellWord_token (h : Host) (v : Cell) :
  cellWord h v = BLANK \/ JsString.trim (cellWord h v) <> "".
Proof.
  unfold cellWord.
  destruct (String.eqb_spec (JsString.trim (ToString h (orElse v (CString "")))) "")
    as [Hempty|Hfull]; [left; reflexivity|].
  right. rewrite trim_idem. exact Hfull.
Qed.

(** C9.  The default flag of a word is [false] exactly when the word is
    the blank sentinel, or its whole text reads as a number (and is not
    blank), or it begins, whatever the case of its letters, with
    [dsp initiated work]; on the words read from cells, which are never
    blank, the three cases are the whole story; the four words of the
    specification get the flags it lists. *)
Theorem classifyDefault_exact :
  (forall word : string,
     classifyDefault word = false <->
       word = BLANK
       \/ (JsNumber.isNaN (JsNumber.ofString word) = false /\ JsString.trim word <> "")
       \/ JsString.startsWith (JsString.toLowerCase word) "dsp initiated work" = true)
  /\ (forall (h : Host) (v : Cell),
        classifyDefault (cellWord h v) = false <->
          cellWord h v = BLANK
          \/ JsNumber.isNaN (JsNumber.ofString (cellWord h v)) = false
          \/ JsString.startsWith (JsString.toLowerCase (cellWord h v))
                                 "dsp initiated work" = true)
  /\ classifyDefault "__BLANK__" = false
  /\ classifyDefault "42" = false
  /\ classifyDefault "DSP Initiated Work - reason" = false
  /\ classifyDefault "Called Out" = true.
Proof.
  assert (Hall : forall word : string,
            classifyDefault word = false <->
              word = BLANK
              \/ (JsNumber.isNaN (JsNumber.ofString word) = false
                  /\ JsString.trim word <> "")
              \/ JsString.startsWith (JsString.toLowerCase word)
                                     "dsp initiated work" = true).
  { intros word. unfold classifyDefault, isDefaultExcluded, BLANK.
    destruct (String.eqb_spec word "__BLANK__") as [->|Hblank]; [intuition|].
    destruct (JsNumber.isNaN (JsNumber.ofString word));
      destruct (String.eqb_spec (JsString.trim word) "") as [Hempty|Hfull];
      destruct (JsString.startsWith _ _);
      cbn [negb andb]; intuition congruence. }
  split; [exact Hall|].
  split; [|repeat split; vm_compute; reflexivity].
  intros h v. rewrite Hall.
  destruct (cellWord_token h v) as [Hblank|Hfull]; intuition.
Qed.

(** C4, as the code has it.  Toggling a word that has no entry stores
    [false] for it, whatever its default would be; toggling a word that
    has an entry negates its flag.  Either way the inclusion read by the
    counter and the check boxes is negated, and no other word changes. *)
Theorem toggleWord_flips_inclusion :
  forall (prev : gmap string bool) (word : string),
    (prev !! word = None -> toggleWord prev word !! word = Some false)
    /\ (forall b, prev !! word = Some b -> toggleWord prev word !! word = Some (negb b))
    /\ isIncluded (toggleWord prev word) word = negb (isIncluded prev word)
    /\ (forall other, other <> word -> toggleWord prev word !! other = prev !! other).
Proof.
  intros prev word. unfold toggleWord, isIncluded.
  rewrite lookup_insert_eq. repeat split.
  - intros ->. reflexivity.
  - intros b ->. reflexivity.
  - destruct (prev !! word) as [[|]|]; reflexivity.
  - intros other Hne. apply lookup_insert_ne. congruence.
Qed.

(** C4 as stated fails: the word [42] has no entry and its default flag
    is [false], yet toggling it stores [false], not the negation of the
    default. *)
Lemma toggleWord_absent_numeric :
  (∅ : gmap string bool) !! "42" = None
  /\ toggleWord ∅ "42" !! "42" <> Some (negb (classifyDefault "42")).
Proof.
  split; [reflexivity|].
  unfold toggleWord. rewrite lookup_insert_eq, lookup_empty.
  vm_compute. discriminate.
Qed.



(** ** The word inventory and the counts *)

Lemma Set_add_nested_elem {I J : Type} (f : J -> I -> string) (rows : list J) (cols : list I) :
  forall (s : list string) (w : string),
    w ∈ foldl (fun s c => foldl (fun s r => Set_add (f r c) s) s rows) s cols
    <-> w ∈ s \/ exists c r, c ∈ cols /\ r ∈ rows /\ f r c = w.
Proof.
  induction cols as [|c cols IH]; intros s w; cbn [foldl].
  - split; [auto|]. intros [?|(c & r & Hc & _)]; [assumption|]. inversion Hc.
  - rewrite IH, Set_add_fold_elem. split.
    + intros [[?|(r & Hr & <-)]|(c' & r & Hc & Hr & <-)]; [auto| |].
      * right. exists c, r. repeat split; [left|assumption].
      * right. exists c', r. repeat split; [right|]; assumption.
    + intros [?|(c' & r & Hc & Hr & <-)]; [auto|].
      apply elem_of_cons in Hc as [->|Hc].
      * left. right. exists r. auto.
      * right. exists c', r. auto.
Qed.

(** The inventory holds the word of every cell of the data region, from
    column 2 to the end of the header row, whatever the header cell. *)
Lemma extractUniqueWords_elem (h : Host) (jsonData : Grid) (w : string) :
  w ∈ extractUniqueWords h jsonData
  <-> (4 <= length jsonData)%nat
      /\ exists c r, (2 <= c < headerWidth jsonData)%nat
                     /\ (4 <= r < length jsonData)%nat
                     /\ cellWord h (cellAt2 jsonData r c) = w.
Proof.
  unfold extractUniqueWords. fold (headerWidth jsonData).
  destruct (Nat.ltb_spec (length jsonData) 4) as [Hshort|Hlong].
  { split; [intros Hin; inversion Hin|intros [? _]; lia]. }
  rewrite (Array_sort_Permutation JsString.compareCodeUnits).
  unfold forLoop.
  rewrite (Set_add_nested_elem (fun r c => cellWord h (cellAt2 jsonData r c))).
  split.
  - intros [Hin|(c & r & Hc & Hr & Hw)]; [inversion Hin|].
    apply elem_of_seq in Hc, Hr. split; [assumption|].
    exists c, r. repeat split; try assumption; lia.
  - intros (_ & c & r & Hc & Hr & Hw). right. exists c, r.
    rewrite !elem_of_seq. repeat split; try assumption; lia.
Qed.

Lemma cellWord_falsy (h : Host) (v : Cell) :
  ToBoolean v = false -> cellWord h v = BLANK.
Proof.
  intros Hv. unfold cellWord, orElse. rewrite Hv. reflexivity.
Qed.

(** The count of a column is the number of its data cells whose word is
    included. *)
Lemma countColumn_filter (h : Host) (jsonData : Grid) (st : gmap string bool) (c : nat) :
  countColumn h jsonData st c
  = length (filter (fun r => isIncluded st (cellWord h (cellAt2 jsonData r c)) = true)
                   (seq 4 (length jsonData - 4))).
Proof.
  unfold countColumn, forLoop.
  generalize (seq 4 (length jsonData - 4)) as rows. intros rows.
  enough (Hacc : forall n : nat,
             foldl (fun count r =>
                      if isIncluded st (cellWord h (cellAt2 jsonData r c))
                      then S count else count) n rows
             = (n + length (filter (fun r => isIncluded st (cellWord h (cellAt2 jsonData r c)) = true)
                                   rows))%nat)
    by apply (Hacc O).
  induction rows as [|r rows IH]; intros n; cbn [foldl].
  - cbn. lia.
  - rewrite filter_cons, IH. destruct (isIncluded st _) eqn:Hinc.
    + rewrite decide_True by reflexivity. cbn [length]. lia.
    + rewrite decide_False by discriminate. reflexivity.
Qed.

(** A column whose data cells all give one word is counted by the flag of
    that word alone. *)
Lemma countColumn_one_word (h : Host) (jsonData : Grid) (st : gmap string bool)
    (c : nat) (word : string) :
  (forall r, (4 <= r < length jsonData)%nat -> cellWord h (cellAt2 jsonData r c) = word) ->
  countColumn h jsonData st c = if isIncluded st word then (length jsonData - 4)%nat else O.
Proof.
  intros Hcol. rewrite countColumn_filter.
  assert (Hrows : forall r, r ∈ seq 4 (length jsonData - 4) ->
                            cellWord h (cellAt2 jsonData r c) = word).
  { intros r Hr. apply elem_of_seq in Hr. apply Hcol. lia. }
  enough (Hlen : forall rows : list nat,
             (forall r, r ∈ rows -> cellWord h (cellAt2 jsonData r c) = word) ->
             length (filter (fun r => isIncluded st (cellWord h (cellAt2 jsonData r c)) = true)
                            rows)
             = if isIncluded st word then length rows else O).
  { rewrite (Hlen _ Hrows), length_seq. reflexivity. }
  clear Hrows. induction rows as [|r rows IH]; intros Hrows.
  - destruct (isIncluded st word); reflexivity.
  - rewrite filter_cons, (Hrows r) by left.
    assert (IH' := IH (fun r' Hr' => Hrows r' (list_elem_of_further _ _ _ Hr'))).
    destruct (isIncluded st word).
    + rewrite decide_True by reflexivity. cbn [length]. rewrite IH'. reflexivity.
    + rewrite decide_False by discriminate. exact IH'.
Qed.

(** Reading a decoded row at a column gives what the decoder stores for
    the cell object at that column. *)
Lemma sheetRow_cellAt (raw : bool) (row : list (option CellObject)) :
  forall c : nat, cellAt (sheetRow raw row) c = sheetCellValue raw (default None (row !! c)).
Proof.
  unfold cellAt. induction row as [|cell rest IH]; intros c.
  - destruct c; reflexivity.
  - cbn [sheetRow]. destruct c as [|c].
    + destruct (sheetRow raw rest), cell; reflexivity.
    + specialize (IH c). cbn [lookup list_lookup] in *.
      destruct (sheetRow raw rest) as [|x cells], cell; exact IH.
Qed.

Lemma sheet_to_json_cell (worksheet : Sheet) (raw : bool) (r c : nat) :
  cellAt2 (sheet_to_json worksheet raw) r c = sheetCellValue raw (sheetCell worksheet r c).
Proof.
  unfold cellAt2, sheet_to_json, sheetCell.
  revert r. induction worksheet as [|row rows IH]; intros [|r]; try reflexivity.
  - apply sheetRow_cellAt.
  - apply IH.
Qed.

(** The word of a text cell is its text, trimmed, or the blank word. *)
Lemma cellWord_text (h : Host) (s : string) :
  cellWord h (CString s)
  = if String.eqb (JsString.trim s) "" then BLANK else JsString.trim s.
Proof.
  unfold cellWord, orElse, ToBoolean, JsString.isEmpty.
  destruct s as [|a s]; reflexivity.
Qed.

(** C10, as the code has it.  The grid is asked for with [raw: false], so
    a cell of it is text or missing, never a number or a boolean: a cell
    object that holds the number 0 and shows it as [0] gives the word [0],
    which the numeric rule excludes, and a column of such cells is counted
    by the flag of the word [0].  The blank word is the word of a missing
    cell, of a cell object whose text is empty or white space, and of any
    falsy value that reaches the word functions; a cell that gives it
    enters the inventory as the blank word, which the blank rule excludes,
    and a column of such cells is counted by the flag of the blank word.
    Had the grid been asked for with [raw: true], the cell object holding
    0 would give the blank word. *)
Theorem decoded_zero_is_a_numeric_word :
  forall h : Host,
    (forall (worksheet : Sheet) (r c : nat),
        cellAt2 (parseExcelFile worksheet) r c
        = match sheetCell worksheet r c with
          | Some cell => CString (cell_w cell)
          | None => CUndefined
          end)
    /\ (forall v : Cell, cellWord h (sheetCellValue false (Some (mkCellObject v "0"))) = "0")
    /\ (isDefaultExcluded "0" = true
        /\ "0" <> BLANK
        /\ negb (JsNumber.isNaN (JsNumber.ofString "0"))
           && negb (String.eqb (JsString.trim "0") "") = true)
    /\ (forall (worksheet : Sheet) (st : gmap string bool) (c : nat),
          (forall r, (4 <= r < length worksheet)%nat ->
                     exists v, sheetCell worksheet r c = Some (mkCellObject v "0")) ->
          countColumn h (parseExcelFile worksheet) st c
          = if isIncluded st "0" then (length worksheet - 4)%nat else O)
    /\ (forall cell : option CellObject,
          cellWord h (sheetCellValue false cell) = BLANK
          <-> match cell with
              | Some c => JsString.trim (cell_w c) = "" \/ JsString.trim (cell_w c) = BLANK
              | None => True
              end)
    /\ (forall v : Cell, ToBoolean v = false -> cellWord h v = BLANK /\ cellWord h v <> "0")
    /\ isDefaultExcluded BLANK = true
    /\ (forall (jsonData : Grid) (r c : nat),
          (4 <= r < length jsonData)%nat -> (2 <= c < headerWidth jsonData)%nat ->
          ToBoolean (cellAt2 jsonData r c) = false ->
          BLANK ∈ extractUniqueWords h jsonData)
    /\ (forall (jsonData : Grid) (st : gmap string bool) (c : nat),
          (forall r, (4 <= r < length jsonData)%nat ->
                     ToBoolean (cellAt2 jsonData r c) = false) ->
          countColumn h jsonData st c
          = if isIncluded st BLANK then (length jsonData - 4)%nat else O)
    /\ (forall w : string,
          cellWord h (sheetCellValue true (Some (mkCellObject (CNumber (JsNumber.ofZ 0)) w)))
          = BLANK).
Proof.
  intros h.
  split; [|split; [|split; [|split; [|split; [|split; [|split; [|split; [|split]]]]]]]].
  - intros worksheet r c. unfold parseExcelFile. rewrite sheet_to_json_cell.
    destruct (sheetCell worksheet r c); reflexivity.
  - intros v. reflexivity.
  - split; [reflexivity|]. split; [discriminate|reflexivity].
  - intros worksheet st c Hcol.
    assert (Hlen : length (parseExcelFile worksheet) = length worksheet)
      by apply List.length_map.
    rewrite <- Hlen. apply countColumn_one_word. intros r Hr.
    rewrite Hlen in Hr. destruct (Hcol r Hr) as [v Hv].
    unfold parseExcelFile. rewrite sheet_to_json_cell, Hv. reflexivity.
  - intros [cell|]; [|split; [trivial|reflexivity]].
    cbn [sheetCellValue]. rewrite cellWord_text.
    destruct (String.eqb_spec (JsString.trim (cell_w cell)) "") as [He|Hne].
    + split; [intros _; left; exact He|reflexivity].
    + split; [intros Hw; right; exact Hw|].
      intros [He|Hb]; [contradiction|exact Hb].
  - intros v Hv. rewrite (cellWord_falsy h v Hv). split; [reflexivity|discriminate].
  - reflexivity.
  - intros jsonData r c Hr Hc Hv.
    apply extractUniqueWords_elem. split; [lia|].
    exists c, r. repeat split; try lia. apply cellWord_falsy. assumption.
  - intros jsonData st c Hcol. apply countColumn_one_word.
    intros r Hr. apply cellWord_falsy, Hcol, Hr.
  - intros w. reflexivity.
Qed.

(** C10, the counterexample.  The only data cell of the worksheet holds
    the number 0.  Its word is [0], not the blank word: the inventory is
    the word [0] alone, and the cell is counted whatever the flag of the
    blank word and left out as soon as the word [0] is excluded, which is
    what the numeric rule does at first sight. *)
Lemma zero_cell_is_not_blank :
  sheetCell zeroSheet 4 2 = Some zeroCell
  /\ cell_v zeroCell = CNumber (JsNumber.ofZ 0)
  /\ cellWord plainHost (cellAt2 (parseExcelFile zeroSheet) 4 2) = "0"
  /\ cellWord plainHost (cellAt2 (parseExcelFile zeroSheet) 4 2) <> BLANK
  /\ extractUniqueWords plainHost (parseExcelFile zeroSheet) = ["0"]
  /\ countColumn plainHost (parseExcelFile zeroSheet) {[ BLANK := false ]} 2 = 1%nat
  /\ countColumn plainHost (parseExcelFile zeroSheet) {[ "0" := false ]} 2 = O
  /\ initFilterState ∅ (extractUniqueWords plainHost (parseExcelFile zeroSheet)) !! "0"
     = Some false
  /\ initFilterState ∅ (extractUniqueWords plainHost (parseExcelFile zeroSheet)) !! BLANK
     = None.
Proof.
  split; [reflexivity|]. split; [reflexivity|].
  split; [vm_compute; reflexivity|]. split; [vm_compute; discriminate|].
  split; [vm_compute; reflexivity|].
  split; [vm_compute; reflexivity|]. split; [vm_compute; reflexivity|].
  split; vm_compute; reflexivity.
Qed.

(** C2, on the code.  The header of column 2 is empty, so the counts skip
    the column; the inventory scans it all the same and lists its word. *)
Theorem inventory_scans_headerless_column :
  forall h : Host,
    ToBoolean (cellAt2 headerlessColumnGrid 3 2) = false
    /\ map column (processExcelData h headerlessColumnGrid ∅) = [3%nat]
    /\ extractUniqueWords h headerlessColumnGrid = ["A"; "Ghost"].
Proof.
  intros h. split; [reflexivity|]. split; vm_compute; reflexivity.
Qed.

(** ** The Metric compiler *)

Import Metric.

(** The array [dates] holds, in order, the dates of the header cells from
    column 1 on that give one. *)
Lemma collectDates_omap (h : Host) (dateRow : list Cell) :
  collectDates h dateRow = omap (headerText h) (drop 1 dateRow).
Proof.
  unfold collectDates.
  rewrite (forLoop_cells dateRow
             (fun value (dates : list string) =>
                match headerDate h value with
                | Some dateObj => (dates ++ [toIsoDateString dateObj])%list
                | None => dates
                end)).
  apply (foldl_push_omap (headerDate h) toIsoDateString (drop 1 dateRow) []).
Qed.

Lemma forLoop_push_imap {A B : Type} (f : nat -> A -> B) (d : A) (l : list A) :
  forall (lo : nat) (acc : list B),
    forLoop lo (length l) (fun i (acc : list B) => (acc ++ [f i (default d (l !! i))])%list) acc
    = (acc ++ imap (fun i => f (lo + i)%nat) (drop lo l))%list.
Proof.
  intros lo acc.
  remember (length l - lo)%nat as n eqn:Hn.
  revert lo acc Hn. induction n as [|n IH]; intros lo acc Hn.
  - rewrite forLoop_empty by lia. rewrite drop_ge by lia.
    cbn. rewrite app_nil_r. reflexivity.
  - rewrite forLoop_step by lia.
    destruct (lookup_lt_is_Some_2 l lo) as [x Hx]; [lia|].
    rewrite (drop_S _ _ _ Hx), IH by lia. rewrite Hx. cbn [default imap].
    rewrite <- app_assoc. cbn [app]. rewrite Nat.add_0_r.
    do 2 f_equal. apply imap_ext. intros i y _. cbn. f_equal. lia.
Qed.

(** The row of the [k]-th date reads column [k + 1] of the metric rows. *)
Lemma processExcelFile_rows (h : Host) (dateRow : list Cell) (rest : Grid) :
  processExcelFile h (dateRow :: rest)
  = Returned (imap (buildRow (dateRow :: rest)) (collectDates h dateRow)).
Proof.
  unfold processExcelFile. cbn [lookup list_lookup]. f_equal.
  rewrite (forLoop_push_imap (buildRow (dateRow :: rest)) "").
  rewrite drop_0. reflexivity.
Qed.

(** C1, on the code.  The header of column 1 is [Total], so the first
    date comes from column 2; the row of that date takes its metrics from
    column 1, the total, not from column 2. *)
Theorem metrics_read_from_shifted_column :
  forall h : Host,
    headerText h (cellAt2 totalFirstGrid 0 1) = None
    /\ headerText h (cellAt2 totalFirstGrid 0 2) = Some "2024-01-05"
    /\ exists row rest,
         processExcelFile h totalFirstGrid = Returned (row :: rest)
         /\ Date_ row = "2024-01-05"
         /\ Capacity_reliability_score row = parseNumberOrZero (cellAt2 totalFirstGrid 1 1)
         /\ Capacity_reliability_score row <> parseNumberOrZero (cellAt2 totalFirstGrid 1 2)
         /\ Completed_routes row = parseNumber (cellAt2 totalFirstGrid 2 1)
         /\ Completed_routes row <> parseNumber (cellAt2 totalFirstGrid 2 2).
Proof.
  intros h. split; [reflexivity|]. split; [reflexivity|].
  eexists. eexists. split; [vm_compute; reflexivity|].
  cbn [Date_ Capacity_reliability_score Completed_routes].
  split; [reflexivity|]. split; [vm_compute; reflexivity|].
  split; [vm_compute; discriminate|]. split; [vm_compute; reflexivity|].
  vm_compute. discriminate.
Qed.

(** Header cells that hold a [Date], a serial number or a date-only
    string give the same date in every zone. *)
Lemma headerDate_zone_free (h : Host) (tza : Z) (value : Cell) :
  match value with
  | CString s =>
      match JsDate.isoFields s with
      | Some f => JsDate.isoUTC f = true
      | None => False
      end
  | _ => True
  end ->
  headerDate (withLocalTZA h tza) value = headerDate h value.
Proof.
  destruct value as [| |s|n|b|d]; try reflexivity.
  intros Hs. unfold headerDate, Date_parse.
  destruct (JsDate.isoFields s) as [f|]; [|contradiction].
  rewrite Hs. reflexivity.
Qed.

(** C3, on the code.  The header text is a date-time without an offset,
    which is a local time: the date it gives is 5 January in the UTC zone
    and 4 January one hour east of it. *)
Theorem local_header_date_follows_zone :
  forall h : Host,
    collectDates (withLocalTZA h 0) localMidnightHeader = ["2024-01-05"]
    /\ collectDates (withLocalTZA h 3600000) localMidnightHeader = ["2024-01-04"].
Proof.
  intros h. split; vm_compute; reflexivity.
Qed.

Lemma headerDate_skipped (h : Host) (value : Cell) :
  value = CString "Total" \/ ToBoolean value = false -> headerDate h value = None.
Proof.
  intros [->|Hv]; [reflexivity|].
  unfold headerDate. rewrite Hv. reflexivity.
Qed.

(** C6, as the code has it.  A header cell that is [Total] or empty gives
    no date, and the cells on its right are read as if it were not there:
    the dates are those on its left followed by those on its right. *)
Theorem total_header_is_skipped :
  forall (h : Host) (label value : Cell) (before after : list Cell),
    value = CString "Total" \/ ToBoolean value = false ->
    headerDate h value = None
    /\ collectDates h (label :: before ++ value :: after)
       = (collectDates h (label :: before) ++ collectDates h (label :: after))%list.
Proof.
  intros h label value before after Hv.
  pose proof (headerDate_skipped h value Hv) as Hnone.
  split; [exact Hnone|].
  rewrite !collectDates_omap, !skipn_cons, !drop_0.
  rewrite omap_app. cbn [omap list_omap].
  unfold headerText at 2. rewrite Hnone. reflexivity.
Qed.

Lemma total_header_is_skipped_witness :
  (CString "Total" = CString "Total" \/ ToBoolean (CString "Total") = false)
  /\ headerDate plainHost (CString "Total") = None
  /\ collectDates plainHost (CString "Metric" :: [CDate jan5] ++ CString "Total" :: [CDate jan6])
     = (collectDates plainHost (CString "Metric" :: [CDate jan5])
        ++ collectDates plainHost (CString "Metric" :: [CDate jan6]))%list.
Proof.
  split; [left; reflexivity|].
  apply (total_header_is_skipped plainHost (CString "Metric") (CString "Total")
           [CDate jan5] [CDate jan6]).
  left; reflexivity.
Defined.

(** C6 as stated fails: were [Total] the end of the date axis, the dates
    of a header would be those of its part before [Total]. *)
Lemma total_does_not_end_axis :
  ~ (forall (h : Host) (dateRow : list Cell) (i : nat),
       (1 <= i)%nat ->
       cellAt dateRow i = CString "Total" \/ ToBoolean (cellAt dateRow i) = false ->
       collectDates h dateRow = collectDates h (take i dateRow)).
Proof.
  intros Hclaim.
  specialize (Hclaim plainHost [CString "Metric"; CString "Total"; CDate jan5] 1%nat).
  assert (Hdates : ["2024-01-05"] = @nil string); [|discriminate Hdates].
  apply Hclaim; [lia|left; reflexivity].
Qed.

Lemma buildRow_header_only (dateRow : list Cell) (dateIdx : nat) (dateStr : string) :
  buildRow [dateRow] dateIdx dateStr = defaultRow dateStr.
Proof. reflexivity. Qed.

(** C7, as the code has it.  No grid is rejected for being short.  A
    Word-Filter grid of fewer than four rows gives no counts and no words.
    A Metric grid without rows makes the call throw; a Metric grid of one
    row gives a row for each of its dates, with score 0 and no other
    metric. *)
Theorem short_grid_outcomes :
  forall h : Host,
    (forall (jsonData : Grid) (st : gmap string bool),
        (length jsonData < 4)%nat ->
        processExcelData h jsonData st = [] /\ extractUniqueWords h jsonData = [])
    /\ processExcelFile h [] = Thrown TypeError
    /\ (forall dateRow : list Cell,
          processExcelFile h [dateRow]
          = Returned (map defaultRow (collectDates h dateRow))).
Proof.
  intros h. split; [|split].
  - intros jsonData st Hshort.
    unfold processExcelData, extractUniqueWords.
    apply Nat.ltb_lt in Hshort. rewrite Hshort. split; reflexivity.
  - reflexivity.
  - intros dateRow. rewrite processExcelFile_rows. f_equal.
    rewrite <- (imap_const defaultRow). apply imap_ext.
    intros i d _. apply buildRow_header_only.
Qed.

(** C7 as stated fails: a Metric grid of one row is processed and gives a
    row, and a Word-Filter grid of three rows gives empty results. *)
Lemma short_grids_are_not_rejected :
  ~ (forall (h : Host) (data : Grid),
       (length data < 2)%nat -> exists e, processExcelFile h data = Thrown e)
  /\ (length ([[]; []; []] : Grid) < 4)%nat
  /\ processExcelData plainHost [[]; []; []] ∅ = []
  /\ extractUniqueWords plainHost [[]; []; []] = [].
Proof.
  split; [|split; [cbn; lia|split; reflexivity]].
  intros Hclaim.
  destruct (Hclaim plainHost [[CString "Metric"; CDate jan5]]) as [e He]; [cbn; lia|].
  vm_compute in He. discriminate He.
Qed.

Lemma inOrder_Sorted {A : Type} (cmp : A -> A -> Z) (l : list A) :
  inOrder cmp l = true -> Sorted (fun a b => cmp a b <= 0) l.
Proof.
  induction l as [|a t IH]; intros Hord; [constructor|].
  destruct t as [|b t'].
  - repeat constructor.
  - cbn [inOrder] in Hord. apply andb_prop in Hord as [Hab Ht].
    constructor; [apply IH, Ht|]. constructor. apply Z.leb_le, Hab.
Qed.

(** C8.  On rows that are in date order, the encoder leaves the caller's
    array as it was, and the buffer it returns is the written form of the
    sheet made of those rows, a function of the rows alone. *)
Theorem generateCompiledExcel_keeps_sorted_rows :
  forall (h : Host) (ArrayBuffer : Type) (XLSX_write : list Worksheet -> ArrayBuffer)
         (allRows : list ProcessedRow),
    inOrder (compareRows h) allRows = true ->
    generateCompiledExcel h XLSX_write allRows
    = (allRows, XLSX_write [compiledSheet allRows]).
Proof.
  intros h ArrayBuffer XLSX_write allRows Hord.
  unfold generateCompiledExcel, compiledSheet.
  rewrite (Array_sort_sorted (compareRows h) allRows (inOrder_Sorted _ _ Hord)).
  reflexivity.
Qed.

Lemma generateCompiledExcel_keeps_sorted_rows_witness :
  inOrder (compareRows plainHost) [defaultRow "2024-01-05"; defaultRow "2024-01-06"] = true
  /\ generateCompiledExcel plainHost (fun book => book)
       [defaultRow "2024-01-05"; defaultRow "2024-01-06"]
     = ([defaultRow "2024-01-05"; defaultRow "2024-01-06"],
        [compiledSheet [defaultRow "2024-01-05"; defaultRow "2024-01-06"]]).
Proof.
  split; [reflexivity|].
  apply (generateCompiledExcel_keeps_sorted_rows plainHost (list Worksheet)
           (fun book => book) [defaultRow "2024-01-05"; defaultRow "2024-01-06"]).
  reflexivity.
Defined.

(** The sort is in place: rows out of order are moved in the caller's
    array. *)
Lemma generateCompiledExcel_sorts_in_place :
  fst (generateCompiledExcel plainHost (fun book => book)
         [defaultRow "2024-01-06"; defaultRow "2024-01-05"])
  = [defaultRow "2024-01-05"; defaultRow "2024-01-06"].
Proof. vm_compute. reflexivity. Qed.

(** ** The definitions on small inputs *)

Example trim_called_out : JsString.trim "  Called Out " = "Called Out".
Proof. reflexivity. Qed.

Example split_date : JsString.split "-" "2024-01-05" = ["2024"; "01"; "05"].
Proof. reflexivity. Qed.

Example ofString_samples :
  JsNumber.ofString "42" = Finite 42
  /\ JsNumber.ofString " 4.5e1 " = Finite 45
  /\ JsNumber.ofString "0x1F" = Finite 31
  /\ JsNumber.ofString "" = Finite 0
  /\ JsNumber.ofString "12a" = NaN
  /\ JsNumber.ofString "Called Out" = NaN
  /\ JsNumber.parseFloat "45 apples" = Finite 45.
Proof. repeat split; vm_compute; reflexivity. Qed.

Example parseNumber_samples :
  parseNumber (CString "45%") = Some (Finite (9 # 20))
  /\ parseNumber (CString "-") = None
  /\ parseNumber (CString "") = None
  /\ parseNumber (CNumber (Finite 7)) = Some (Finite 7)
  /\ parseNumber (CString " 12 ") = Some (Finite 12)
  /\ parseNumber (CString "n/a") = None.
Proof. repeat split; vm_compute; reflexivity. Qed.

Example toIsoDateString_samples :
  toIsoDateString jan5 = "2024-01-05"
  /\ toIsoDateString (Some 0) = "1970-01-01"
  /\ toIsoDateString (Some (-1)) = "1969-12-31"
  /\ toIsoDateString None = "NaN-NaN-NaN".
Proof. repeat split; vm_compute; reflexivity. Qed.

Example getWeekNumber_samples :
  getWeekNumber "2024-01-01" = Finite 1
  /\ getWeekNumber "2023-01-07" = Finite 1
  /\ getWeekNumber "2023-01-08" = Finite 2
  /\ getWeekNumber "2024-12-31" = Finite 53
  /\ getWeekNumber "no date" = NaN.
Proof. repeat split; vm_compute; reflexivity. Qed.

Example serial_header :
  collectDates plainHost [CString "Metric"; CNumber (Finite 45296); CString "2024-01-06"]
  = ["2024-01-05"; "2024-01-06"].
Proof. vm_compute. reflexivity. Qed.

Example count_with_defaults :
  let jsonData : Grid :=
    [ []; []; []; [CNull; CNull; CString "1/5/2024"; CString "1/6/2024"];
      [CNull; CNull; CString "A"; CString "B"];
      [CNull; CNull; CString "A"; CString ""];
      [CNull; CNull; CString "2"; CString "A"] ] in
  let st := initFilterState ∅ (extractUniqueWords plainHost jsonData) in
  extractUniqueWords plainHost jsonData = ["2"; "A"; "B"; "__BLANK__"]
  /\ map count (processExcelData plainHost jsonData st) = [2%nat; 2%nat]
  /\ map count (processExcelData plainHost jsonData (toggleWord st "__BLANK__")) = [2%nat; 3%nat].
Proof. repeat split; vm_compute; reflexivity. Qed.

(** * Further properties *)

(** ** Sorting *)

Lemma sortInsert_Sorted {A : Type} (cmp : A -> A -> Z) (x : A) (l : list A) :
  totalOrder cmp ->
  Sorted (fun a b => cmp a b <= 0) l ->
  Sorted (fun a b => cmp a b <= 0) (sortInsert cmp x l).
Proof.
  intros Htotal Hl. induction Hl as [|y l Hl IH Hhd]; cbn [sortInsert].
  - repeat constructor.
  - destruct (Z.leb_spec (cmp x y) 0) as [Hxy|Hxy].
    + constructor; [constructor; assumption|constructor; exact Hxy].
    + constructor; [exact IH|].
      destruct Hhd as [|z l' Hyz]; cbn [sortInsert].
      * constructor. apply Htotal, Hxy.
      * destruct (cmp x z <=? 0); constructor; [apply Htotal, Hxy|exact Hyz].
Qed.

Lemma Array_sort_Sorted {A : Type} (cmp : A -> A -> Z) (l : list A) :
  totalOrder cmp -> Sorted (fun a b => cmp a b <= 0) (Array_sort cmp l).
Proof.
  intros Htotal. induction l as [|x l IH]; [constructor|].
  cbn. fold (Array_sort cmp l). apply sortInsert_Sorted; assumption.
Qed.

Lemma Sorted_inOrder {A : Type} (cmp : A -> A -> Z) (l : list A) :
  Sorted (fun a b => cmp a b <= 0) l -> inOrder cmp l = true.
Proof.
  induction 1 as [|a t Ht IH Hhd]; [reflexivity|].
  destruct Hhd as [|b t' Hab]; [reflexivity|].
  change (inOrder cmp (a :: b :: t'))
    with ((cmp a b <=? 0) && inOrder cmp (b :: t')).
  rewrite IH. apply Z.leb_le in Hab. rewrite Hab. reflexivity.
Qed.

Lemma compareCodeUnits_total : totalOrder JsString.compareCodeUnits.
Proof.
  intros a b. unfold JsString.compareCodeUnits.
  rewrite (String.compare_antisym b a).
  destruct (String.compare a b); cbn; lia.
Qed.

Lemma compareCodeUnits_le_neq (a b : string) :
  JsString.compareCodeUnits a b <= 0 -> a <> b -> String.compare a b = Lt.
Proof.
  unfold JsString.compareCodeUnits. intros Hle Hne.
  destruct (String.compare a b) eqn:Hc; [|reflexivity|lia].
  apply String.compare_eq_iff in Hc. contradiction.
Qed.

Lemma Sorted_NoDup_strict (l : list string) :
  Sorted (fun a b => JsString.compareCodeUnits a b <= 0) l -> NoDup l ->
  Sorted (fun a b => String.compare a b = Lt) l.
Proof.
  induction 1 as [|a t Ht IH Hhd]; intros Hnd; [constructor|].
  apply NoDup_cons in Hnd as [Ha Hnd].
  constructor; [apply IH, Hnd|].
  destruct Hhd as [|b t' Hab]; constructor.
  apply compareCodeUnits_le_neq; [exact Hab|].
  intros ->. apply Ha. left.
Qed.

(** ** The inventory *)

Lemma Set_add_NoDup (w : string) (s : list string) : NoDup s -> NoDup (Set_add w s).
Proof.
  intros Hs. unfold Set_add. case_bool_decide as Hw; [exact Hs|].
  apply NoDup_app. repeat split; [exact Hs| |apply NoDup_singleton].
  intros x Hx Hx'. apply list_elem_of_singleton in Hx'. subst. contradiction.
Qed.

Lemma Set_add_fold_NoDup {I : Type} (f : I -> string) (l : list I) :
  forall s : list string, NoDup s -> NoDup (foldl (fun s i => Set_add (f i) s) s l).
Proof.
  induction l as [|i l IH]; intros s Hs; [exact Hs|].
  cbn [foldl]. apply IH, Set_add_NoDup, Hs.
Qed.

Lemma Set_add_nested_NoDup {I J : Type} (f : J -> I -> string) (rows : list J) (cols : list I) :
  forall s : list string,
    NoDup s -> NoDup (foldl (fun s c => foldl (fun s r => Set_add (f r c) s) s rows) s cols).
Proof.
  induction cols as [|c cols IH]; intros s Hs; [exact Hs|].
  cbn [foldl]. apply IH, Set_add_fold_NoDup, Hs.
Qed.

(** X1.  The inventory of a grid holds exactly the words of the cells of
    its data region (rows 4 and below, columns 2 to the end of the header
    row); it holds each word once, in ascending code-unit order. *)
Theorem inventory_is_sorted_set_of_region :
  forall (h : Host) (jsonData : Grid),
    (forall w,
        w ∈ extractUniqueWords h jsonData
        <-> exists c r, (2 <= c < headerWidth jsonData)%nat
                        /\ r ∈ dataRows jsonData
                        /\ cellWord h (cellAt2 jsonData r c) = w)
    /\ NoDup (extractUniqueWords h jsonData)
    /\ Sorted (fun a b => String.compare a b = Lt) (extractUniqueWords h jsonData).
Proof.
  intros h jsonData.
  assert (Hnd : NoDup (extractUniqueWords h jsonData)).
  { unfold extractUniqueWords. destruct (length jsonData <? 4)%nat; [constructor|].
    rewrite (Array_sort_Permutation JsString.compareCodeUnits).
    unfold forLoop.
    apply (Set_add_nested_NoDup (fun r c => cellWord h (cellAt2 jsonData r c))).
    constructor. }
  split; [|split; [exact Hnd|]].
  - intros w. rewrite extractUniqueWords_elem. unfold dataRows. split.
    + intros (Hlen & c & r & Hc & Hr & Hw). exists c, r.
      rewrite elem_of_seq. repeat split; try assumption; lia.
    + intros (c & r & Hc & Hr & Hw). apply elem_of_seq in Hr.
      split; [lia|]. exists c, r. repeat split; try assumption; lia.
  - apply Sorted_NoDup_strict; [|exact Hnd].
    unfold extractUniqueWords. destruct (length jsonData <? 4)%nat; [constructor|].
    apply Array_sort_Sorted, compareCodeUnits_total.
Qed.

(** ** The counts *)

Lemma foldl_push_if {A B : Type} (p : A -> bool) (f : A -> B) (l : list A) :
  forall acc : list B,
    foldl (fun acc x => if p x then (acc ++ [f x])%list else acc) acc l
    = (acc ++ map f (filter (fun x => p x = true) l))%list.
Proof.
  induction l as [|x l IH]; intros acc; cbn [foldl].
  - cbn. rewrite app_nil_r. reflexivity.
  - rewrite IH, filter_cons. destruct (p x).
    + rewrite decide_True by reflexivity. cbn [map]. rewrite <- app_assoc. reflexivity.
    + rewrite decide_False by discriminate. reflexivity.
Qed.

Lemma filter_length_agree {A : Type} (p q : A -> bool) (l : list A) :
  (forall x, x ∈ l -> p x = q x) ->
  length (filter (fun x => p x = true) l) = length (filter (fun x => q x = true) l).
Proof.
  induction l as [|x l IH]; intros Hpq; [reflexivity|].
  rewrite !filter_cons, <- (Hpq x) by left.
  assert (IH' := IH (fun y Hy => Hpq y (list_elem_of_further _ _ _ Hy))).
  destruct (p x).
  - rewrite !decide_True by reflexivity. cbn [length]. rewrite IH'. reflexivity.
  - rewrite !decide_False by discriminate. exact IH'.
Qed.

Lemma filter_length_all {A : Type} (p : A -> bool) (l : list A) :
  (forall x, x ∈ l -> p x = true) -> length (filter (fun x => p x = true) l) = length l.
Proof.
  induction l as [|x l IH]; intros Hp; [reflexivity|].
  rewrite filter_cons, decide_True by (apply Hp; left).
  cbn [length]. rewrite IH; [reflexivity|].
  intros y Hy. apply Hp. right. exact Hy.
Qed.

Lemma filter_length_none {A : Type} (p : A -> bool) (l : list A) :
  (forall x, x ∈ l -> p x = false) -> length (filter (fun x => p x = true) l) = O.
Proof.
  induction l as [|x l IH]; intros Hp; [reflexivity|].
  rewrite filter_cons, decide_False by (rewrite (Hp x) by left; discriminate).
  apply IH. intros y Hy. apply Hp. right. exact Hy.
Qed.

(** The count of a column, read through any test that agrees with the
    flags on the words of the column. *)
Lemma countColumn_agree (h : Host) (jsonData : Grid) (st : gmap string bool) (c : nat)
    (p : nat -> bool) :
  (forall r, r ∈ dataRows jsonData ->
             isIncluded st (cellWord h (cellAt2 jsonData r c)) = p r) ->
  countColumn h jsonData st c = length (filter (fun r => p r = true) (dataRows jsonData)).
Proof.
  intros Hp. rewrite countColumn_filter.
  apply (filter_length_agree
           (fun r => isIncluded st (cellWord h (cellAt2 jsonData r c))) p).
  exact Hp.
Qed.

(** X2.  The counts of a grid are one entry for each column from 2 on
    whose header cell is not empty, from left to right; the entry carries
    the header cell, its column and the number of data rows whose word in
    that column is not flagged [false], which is at most the number of
    data rows. *)
Theorem counts_follow_headers :
  forall (h : Host) (jsonData : Grid) (st : gmap string bool),
    let dateRow := default [] (jsonData !! 3%nat) in
    processExcelData h jsonData st
    = map (fun c => mkCount (formatDate h (cellAt dateRow c)) (cellAt dateRow c) c
                            (countColumn h jsonData st c))
          (filter (fun c => ToBoolean (cellAt dateRow c) = true)
                  (seq 2 (length dateRow - 2)))
    /\ (forall c,
          countColumn h jsonData st c
          = length (filter (fun r => isIncluded st (cellWord h (cellAt2 jsonData r c)) = true)
                           (dataRows jsonData))
          /\ (countColumn h jsonData st c <= length (dataRows jsonData))%nat).
Proof.
  intros h jsonData st dateRow. split.
  - unfold processExcelData. fold dateRow.
    destruct (Nat.ltb_spec (length jsonData) 4) as [Hshort|Hlong].
    + assert (Hrow : jsonData !! 3%nat = None) by (apply lookup_ge_None; lia).
      unfold dateRow. rewrite Hrow. reflexivity.
    + unfold forLoop.
      apply (foldl_push_if (fun c => ToBoolean (cellAt dateRow c))
               (fun c => mkCount (formatDate h (cellAt dateRow c)) (cellAt dateRow c) c
                                 (countColumn h jsonData st c))
               (seq 2 (length dateRow - 2)) []).
  - intros c. rewrite countColumn_filter. fold (dataRows jsonData).
    split; [reflexivity|]. apply length_filter.
Qed.

Lemma isIncluded_lookup (st : gmap string bool) (w : string) (b : bool) :
  st !! w = Some b -> isIncluded st w = b.
Proof.
  intros Hw. unfold isIncluded. rewrite Hw.
  destruct b; [rewrite bool_decide_eq_false_2 by discriminate|
               rewrite bool_decide_eq_true_2 by reflexivity]; reflexivity.
Qed.

Lemma isIncluded_absent (st : gmap string bool) (w : string) :
  st !! w = None -> isIncluded st w = true.
Proof.
  intros Hw. unfold isIncluded. rewrite Hw.
  rewrite bool_decide_eq_false_2 by discriminate. reflexivity.
Qed.

(** X3.  A word without a flag counts: when no word of a column has a
    flag, and so with the empty filter state, the count of the column is
    the number of data rows, blank cells included. *)
Theorem unflagged_words_count :
  forall (h : Host) (jsonData : Grid) (st : gmap string bool) (c : nat),
    (forall r, r ∈ dataRows jsonData -> st !! cellWord h (cellAt2 jsonData r c) = None) ->
    countColumn h jsonData st c = length (dataRows jsonData)
    /\ countColumn h jsonData ∅ c = (length jsonData - 4)%nat.
Proof.
  intros h jsonData st c Hnone. split.
  - rewrite countColumn_filter. fold (dataRows jsonData).
    apply (filter_length_all
             (fun r => isIncluded st (cellWord h (cellAt2 jsonData r c)))).
    intros r Hr. apply isIncluded_absent, Hnone, Hr.
  - rewrite countColumn_filter. fold (dataRows jsonData).
    rewrite (filter_length_all
               (fun r => isIncluded ∅ (cellWord h (cellAt2 jsonData r c)))).
    + unfold dataRows. apply length_seq.
    + intros r _. apply isIncluded_absent, lookup_empty.
Qed.

Lemma unflagged_words_count_witness :
  (forall r, r ∈ dataRows headerlessColumnGrid ->
             (∅ : gmap string bool) !! cellWord plainHost (cellAt2 headerlessColumnGrid r 3) = None)
  /\ countColumn plainHost headerlessColumnGrid ∅ 3 = length (dataRows headerlessColumnGrid)
  /\ countColumn plainHost headerlessColumnGrid ∅ 3 = (length headerlessColumnGrid - 4)%nat.
Proof.
  split; [intros r _; apply lookup_empty|].
  apply (unflagged_words_count plainHost headerlessColumnGrid ∅ 3).
  intros r _. apply lookup_empty.
Defined.

Lemma region_word_in_inventory (h : Host) (jsonData : Grid) (r c : nat) :
  (2 <= c < headerWidth jsonData)%nat -> r ∈ dataRows jsonData ->
  cellWord h (cellAt2 jsonData r c) ∈ extractUniqueWords h jsonData.
Proof.
  intros Hc Hr. apply extractUniqueWords_elem.
  unfold dataRows in Hr. apply elem_of_seq in Hr.
  split; [lia|]. exists c, r. repeat split; lia.
Qed.

(** X4.  Right after the first ingestion of a grid, the count of a column
    of its data region is the number of its cells whose word is included
    by default: not blank, not a number, not beginning with
    [dsp initiated work]. *)
Theorem first_counts_use_defaults :
  forall (h : Host) (jsonData : Grid) (c : nat),
    (2 <= c < headerWidth jsonData)%nat ->
    countColumn h jsonData (initFilterState ∅ (extractUniqueWords h jsonData)) c
    = length (filter (fun r => classifyDefault (cellWord h (cellAt2 jsonData r c)) = true)
                     (dataRows jsonData)).
Proof.
  intros h jsonData c Hc.
  apply (countColumn_agree h jsonData _ c
           (fun r => classifyDefault (cellWord h (cellAt2 jsonData r c)))).
  intros r Hr. apply isIncluded_lookup, initFilterState_fresh.
  - apply lookup_empty.
  - apply region_word_in_inventory; assumption.
Qed.

Lemma first_counts_use_defaults_witness :
  (2 <= 3 < headerWidth headerlessColumnGrid)%nat
  /\ countColumn plainHost headerlessColumnGrid
       (initFilterState ∅ (extractUniqueWords plainHost headerlessColumnGrid)) 3
     = length (filter (fun r => classifyDefault
                                  (cellWord plainHost (cellAt2 headerlessColumnGrid r 3)) = true)
                      (dataRows headerlessColumnGrid)).
Proof.
  split; [cbn; lia|].
  apply (first_counts_use_defaults plainHost headerlessColumnGrid 3). cbn; lia.
Defined.

(** ** The filter dialog *)

Lemma includes_empty (s : string) : JsString.includes s "" = true.
Proof. destruct s; reflexivity. Qed.

Lemma search_test (searchTerm word : string) :
  String.eqb searchTerm "" || JsString.includes word (JsString.toLowerCase searchTerm)
  = JsString.includes word (JsString.toLowerCase searchTerm).
Proof.
  destruct (String.eqb_spec searchTerm "") as [->|Hne]; [|reflexivity].
  cbn [orb JsString.toLowerCase]. rewrite includes_empty. reflexivity.
Qed.

Lemma assignFlag_lookup_ne (st : gmap string bool) (x w : string) (status : bool) :
  x <> w -> assignFlag st x status !! w = st !! w.
Proof.
  intros Hne. unfold assignFlag.
  destruct (String.eqb x "__proto__" && bool_decide (st !! x = None)); [reflexivity|].
  apply lookup_insert_ne, Hne.
Qed.

Lemma assignFlag_lookup (st : gmap string bool) (w : string) (status : bool) :
  assignFlag st w status !! w
  = if String.eqb w "__proto__" && bool_decide (st !! w = None)
    then st !! w else Some status.
Proof.
  unfold assignFlag.
  destruct (String.eqb w "__proto__" && bool_decide (st !! w = None)); [reflexivity|].
  apply lookup_insert_eq.
Qed.

(** The entry of a word after [setAllVisible]: the status when the word
    is listed, but for the word [__proto__] without an entry; the entry
    it had otherwise. *)
Lemma setAllVisible_lookup (searchTerm : string) (status : bool) (uniqueWords : list string) :
  forall (st : gmap string bool) (w : string),
    setAllVisible st uniqueWords searchTerm status !! w
    = if bool_decide (w ∈ filteredWords uniqueWords searchTerm)
         && negb (String.eqb w "__proto__" && bool_decide (st !! w = None))
      then Some status else st !! w.
Proof.
  unfold setAllVisible, filteredWords.
  induction uniqueWords as [|x l IH]; intros st w; cbn [foldl].
  - rewrite bool_decide_eq_false_2 by (intros Hin; inversion Hin). reflexivity.
  - rewrite IH, search_test, filter_cons.
    destruct (JsString.includes x (JsString.toLowerCase searchTerm)) eqn:Hx.
    + rewrite decide_True by reflexivity.
      destruct (decide (x = w)) as [->|Hne].
      * rewrite (bool_decide_eq_true_2 (w ∈ w :: _)) by left.
        rewrite !assignFlag_lookup. cbn [andb].
        destruct (String.eqb w "__proto__"); destruct (st !! w) as [b|];
          repeat case_bool_decide; cbn [andb negb] in *; congruence.
      * rewrite (assignFlag_lookup_ne st x w status Hne).
        assert (Hiff : bool_decide (w ∈ x :: filter (fun word => JsString.includes word (JsString.toLowerCase searchTerm) = true) l)
                       = bool_decide (w ∈ filter (fun word => JsString.includes word (JsString.toLowerCase searchTerm) = true) l)).
        { apply bool_decide_ext. rewrite elem_of_cons. split; [|tauto].
          intros [->|Hin]; [contradiction|exact Hin]. }
        rewrite Hiff. reflexivity.
    + rewrite decide_False by discriminate. reflexivity.
Qed.

(** X5.  [Check All] and [Uncheck All] set the flag of the words the
    dialog lists for the search term, all words of the inventory when the
    term is empty, and leave every other entry as it was.  One listed word
    is passed over: [__proto__], as long as it has no entry, gets none. *)
Theorem setAllVisible_sets_listed_words :
  forall (st : gmap string bool) (uniqueWords : list string) (searchTerm : string)
         (status : bool) (w : string),
    (w ∈ filteredWords uniqueWords searchTerm ->
     w <> "__proto__" \/ is_Some (st !! w) ->
     setAllVisible st uniqueWords searchTerm status !! w = Some status)
    /\ (w ∉ filteredWords uniqueWords searchTerm ->
        setAllVisible st uniqueWords searchTerm status !! w = st !! w)
    /\ (st !! "__proto__" = None ->
        setAllVisible st uniqueWords searchTerm status !! "__proto__" = None)
    /\ filteredWords uniqueWords "" = uniqueWords.
Proof.
  intros st uniqueWords searchTerm status w. split; [|split; [|split]].
  - intros Hin Hw. rewrite setAllVisible_lookup, bool_decide_eq_true_2 by exact Hin.
    cbn [andb]. destruct Hw as [Hw|[b Hb]].
    + rewrite (proj2 (String.eqb_neq w "__proto__") Hw). reflexivity.
    + rewrite (bool_decide_eq_false_2 (st !! w = None)) by (rewrite Hb; discriminate).
      rewrite andb_false_r. reflexivity.
  - intros Hin. rewrite setAllVisible_lookup, bool_decide_eq_false_2 by exact Hin.
    reflexivity.
  - intros Hnone. rewrite setAllVisible_lookup, Hnone, String.eqb_refl.
    rewrite (bool_decide_eq_true_2 (None = None)) by reflexivity.
    cbn [andb negb]. rewrite andb_false_r. reflexivity.
  - unfold filteredWords. cbn [JsString.toLowerCase].
    induction uniqueWords as [|x l IH]; [reflexivity|].
    rewrite filter_cons, decide_True by apply includes_empty.
    rewrite IH. reflexivity.
Qed.

Lemma filteredWords_all (uniqueWords : list string) : filteredWords uniqueWords "" = uniqueWords.
Proof.
  unfold filteredWords. cbn [JsString.toLowerCase].
  induction uniqueWords as [|x l IH]; [reflexivity|].
  rewrite filter_cons, decide_True by apply includes_empty.
  rewrite IH. reflexivity.
Qed.

(** X6.  With an empty search term over the inventory of a grid,
    [Uncheck All] brings the count of a column of the data region to 0 and
    [Check All] brings it to the number of data rows, whatever the flags
    were, provided no data cell of the column reads [__proto__]. *)
Theorem check_all_and_uncheck_all_counts :
  forall (h : Host) (jsonData : Grid) (st : gmap string bool) (c : nat),
    (2 <= c < headerWidth jsonData)%nat ->
    (forall r, r ∈ dataRows jsonData -> cellWord h (cellAt2 jsonData r c) <> "__proto__") ->
    countColumn h jsonData
      (setAllVisible st (extractUniqueWords h jsonData) "" false) c = O
    /\ countColumn h jsonData
         (setAllVisible st (extractUniqueWords h jsonData) "" true) c
       = length (dataRows jsonData).
Proof.
  intros h jsonData st c Hc Hproto.
  assert (Hflag : forall status r, r ∈ dataRows jsonData ->
            isIncluded (setAllVisible st (extractUniqueWords h jsonData) "" status)
                       (cellWord h (cellAt2 jsonData r c)) = status).
  { intros status r Hr. apply isIncluded_lookup.
    rewrite setAllVisible_lookup, filteredWords_all.
    rewrite bool_decide_eq_true_2 by (apply region_word_in_inventory; assumption).
    rewrite (proj2 (String.eqb_neq _ "__proto__") (Hproto r Hr)). reflexivity. }
  split.
  - rewrite (countColumn_agree h jsonData _ c (fun _ => false) (Hflag false)).
    apply (filter_length_none (fun _ : nat => false)). reflexivity.
  - rewrite (countColumn_agree h jsonData _ c (fun _ => true) (Hflag true)).
    apply (filter_length_all (fun _ : nat => true)). reflexivity.
Qed.

Lemma check_all_and_uncheck_all_counts_witness :
  (2 <= 3 < headerWidth headerlessColumnGrid)%nat
  /\ (forall r, r ∈ dataRows headerlessColumnGrid ->
                cellWord plainHost (cellAt2 headerlessColumnGrid r 3) <> "__proto__")
  /\ countColumn plainHost headerlessColumnGrid
       (setAllVisible ∅ (extractUniqueWords plainHost headerlessColumnGrid) "" false) 3 = O
  /\ countColumn plainHost headerlessColumnGrid
       (setAllVisible ∅ (extractUniqueWords plainHost headerlessColumnGrid) "" true) 3
     = length (dataRows headerlessColumnGrid).
Proof.
  assert (Hproto : forall r, r ∈ dataRows headerlessColumnGrid ->
                     cellWord plainHost (cellAt2 headerlessColumnGrid r 3) <> "__proto__").
  { intros r Hr. unfold dataRows in Hr. cbn in Hr.
    repeat (apply elem_of_cons in Hr as [->|Hr]; [vm_compute; discriminate|]).
    inversion Hr. }
  split; [cbn; lia|]. split; [exact Hproto|].
  apply (check_all_and_uncheck_all_counts plainHost headerlessColumnGrid ∅ 3);
    [cbn; lia|exact Hproto].
Defined.

(** X7.  Toggling a word twice leaves the inclusion of every word as it
    was; it gives back the very state when the word had an entry, and
    leaves the entry [true] when it had none. *)
Theorem toggleWord_twice :
  forall (st : gmap string bool) (word : string),
    (forall w, isIncluded (toggleWord (toggleWord st word) word) w = isIncluded st w)
    /\ (is_Some (st !! word) -> toggleWord (toggleWord st word) word = st)
    /\ (st !! word = None -> toggleWord (toggleWord st word) word = <[word := true]> st).
Proof.
  intros st word.
  assert (Htwice : toggleWord (toggleWord st word) word
                   = <[word := match st !! word with None => true | Some b => b end]> st).
  { unfold toggleWord. rewrite lookup_insert_eq, insert_insert_eq.
    destruct (st !! word) as [[|]|]; reflexivity. }
  split; [|split].
  - intros w. rewrite Htwice. unfold isIncluded.
    destruct (decide (word = w)) as [->|Hne].
    + rewrite lookup_insert_eq. destruct (st !! w) as [[|]|]; reflexivity.
    + rewrite lookup_insert_ne by exact Hne. reflexivity.
  - intros [b Hb]. rewrite Htwice, Hb. apply insert_id, Hb.
  - intros Hnone. rewrite Htwice, Hnone. reflexivity.
Qed.

(** ** Ingestion *)







(** X10.  The company and the station of a file are read at row 1,
    columns 1 and 2: the cell itself is returned when it is truthy;
    whenever it is missing or empty, also when the grid has fewer than two
    rows, the placeholder stands in, so neither is ever empty. *)
Theorem extractFileInfo_placeholders :
  forall jsonData : Grid,
    ToBoolean (fst (extractFileInfo jsonData)) = true
    /\ ToBoolean (snd (extractFileInfo jsonData)) = true
    /\ (ToBoolean (cellAt2 jsonData 1 1) = true ->
        fst (extractFileInfo jsonData) = cellAt2 jsonData 1 1)
    /\ (ToBoolean (cellAt2 jsonData 1 2) = true ->
        snd (extractFileInfo jsonData) = cellAt2 jsonData 1 2)
    /\ (ToBoolean (cellAt2 jsonData 1 1) = false ->
        fst (extractFileInfo jsonData) = CString "Unknown Company")
    /\ (ToBoolean (cellAt2 jsonData 1 2) = false ->
        snd (extractFileInfo jsonData) = CString "Unknown Station")
    /\ ((length jsonData < 2)%nat ->
        extractFileInfo jsonData = (CString "Unknown Company", CString "Unknown Station")).
Proof.
  intros jsonData. unfold extractFileInfo, orElse. cbn [fst snd].
  split; [|split; [|split; [|split; [|split; [|split]]]]].
  - destruct (ToBoolean (cellAt2 jsonData 1 1)) eqn:H1; [exact H1|reflexivity].
  - destruct (ToBoolean (cellAt2 jsonData 1 2)) eqn:H2; [exact H2|reflexivity].
  - intros ->. reflexivity.
  - intros ->. reflexivity.
  - intros ->. reflexivity.
  - intros ->. reflexivity.
  - intros Hshort. unfold cellAt2.
    assert (Hrow : jsonData !! 1%nat = None) by (apply lookup_ge_None; lia).
    rewrite Hrow. reflexivity.
Qed.

(** ** Metric rows *)

Lemma div100_not_NaN (n : number) : n <> NaN -> JsNumber.div100 n <> NaN.
Proof. destruct n; cbn; congruence. Qed.

(** X11.  Text never reads as [NaN]: a text cell gives a number or
    [null]; a number cell gives its number as it is; and the score, read
    with the fallback to 0, is never [NaN] and is 0 whenever the cell
    gives no number. *)
Theorem parseNumber_results :
  (forall (s : string) (n : number), parseNumber (CString s) = Some n -> n <> NaN)
  /\ (forall n : number, parseNumber (CNumber n) = Some n)
  /\ (forall v : Cell, parseNumberOrZero v <> NaN)
  /\ (forall v : Cell, parseNumber v = None -> parseNumberOrZero v = Finite 0).
Proof.
  split; [|split; [|split]].
  - intros s n. cbn [parseNumber].
    destruct (String.eqb s "-" || String.eqb s ""); [discriminate|].
    destruct (JsNumber.parseFloat _) as [| neg | q] eqn:Hp; cbn [JsNumber.isNaN negb];
      [discriminate| |];
      destruct (JsString.includes s "%"); intros [= <-]; cbn; discriminate.
  - reflexivity.
  - intros v. unfold parseNumberOrZero.
    destruct (parseNumber v) as [n|]; [|discriminate].
    destruct n as [| neg | q]; cbn; [discriminate|discriminate|].
    destruct (Qeq_bool q 0); discriminate.
  - intros v Hv. unfold parseNumberOrZero. rewrite Hv. reflexivity.
Qed.

Lemma imap_lookup_Some {A B : Type} (f : nat -> A -> B) (l : list A) (k : nat) (y : B) :
  imap f l !! k = Some y -> exists x, l !! k = Some x /\ y = f k x.
Proof.
  rewrite list_lookup_imap. destruct (l !! k) as [x|]; [|discriminate].
  cbn. intros [= <-]. eauto.
Qed.

(** X12.  A grid with a header row is processed without error into one
    row for each header cell, from column 1 on, that gives a date, in the
    order of the columns; the row of the [k]-th date carries that date,
    its week number and the metrics found at column [k + 1] of rows 1 to
    9, with 0 for a missing score and [null] for any other missing
    metric. *)
Theorem processExcelFile_row_shape :
  forall (h : Host) (dateRow : list Cell) (rest : Grid),
  exists rows,
    processExcelFile h (dateRow :: rest) = Returned rows
    /\ map Date_ rows = omap (headerText h) (drop 1 dateRow)
    /\ (forall k row, rows !! k = Some row ->
          Week_ row = getWeekNumber (Date_ row)
          /\ Capacity_reliability_score row
             = match metricCell (dateRow :: rest) 1 (k + 1) with
               | Some v => parseNumberOrZero v
               | None => Finite 0
               end
          /\ nullableMetrics row
             = map (fun r => metricCell (dateRow :: rest) r (k + 1) ≫= parseNumber)
                   [2; 3; 4; 5; 6; 7; 8; 9]%nat).
Proof.
  intros h dateRow rest. eexists. split; [apply processExcelFile_rows|]. split.
  - rewrite <- collectDates_omap.
    generalize (collectDates h dateRow) as dates. intros dates.
    change (map Date_ (imap (buildRow (dateRow :: rest)) dates))
      with (Date_ <$> imap (buildRow (dateRow :: rest)) dates).
    rewrite fmap_imap. rewrite <- (list_fmap_id dates) at 2.
    rewrite <- imap_const. apply imap_ext. reflexivity.
  - intros k row Hrow. apply imap_lookup_Some in Hrow as (d & _ & ->).
    repeat split.
Qed.

Lemma omap_lookup_prefix {A B : Type} (f : A -> option B) (l : list A) :
  forall k : nat,
    (forall j, (j <= k)%nat -> exists x, l !! j = Some x /\ is_Some (f x)) ->
    omap f l !! k = l !! k ≫= f.
Proof.
  induction l as [|a l IH]; intros k Hall.
  - destruct (Hall O) as (x & Hx & _); [lia|]. discriminate.
  - destruct (Hall O) as (x & Hx & [y Hy]); [lia|]. injection Hx as ->.
    cbn [omap list_omap]. rewrite Hy. destruct k as [|k]; [cbn; symmetry; exact Hy|].
    cbn [lookup list_lookup]. apply IH. intros j Hj.
    apply (Hall (S j)). lia.
Qed.

(** X13.  When every header cell from column 1 up to a column gives a
    date, so that no column before it is skipped, the row of that column's
    date is the row that reads the metrics of that very column. *)
Theorem aligned_when_nothing_skipped :
  forall (h : Host) (dateRow : list Cell) (rest : Grid) (c : nat),
    (1 <= c)%nat ->
    (forall j, (1 <= j <= c)%nat -> is_Some (headerText h (cellAt dateRow j))) ->
    (c < length dateRow)%nat ->
    exists rows row,
      processExcelFile h (dateRow :: rest) = Returned rows
      /\ rows !! (c - 1)%nat = Some row
      /\ headerText h (cellAt dateRow c) = Some (Date_ row)
      /\ row = buildRow (dateRow :: rest) (c - 1) (Date_ row)
      /\ Capacity_reliability_score row
         = match metricCell (dateRow :: rest) 1 c with
           | Some v => parseNumberOrZero v
           | None => Finite 0
           end.
Proof.
  intros h dateRow rest c Hc Hall Hlen.
  assert (Hdate : collectDates h dateRow !! (c - 1)%nat = headerText h (cellAt dateRow c)).
  { rewrite collectDates_omap, omap_lookup_prefix.
    - rewrite lookup_drop. replace (1 + (c - 1))%nat with c by lia.
      unfold cellAt. destruct (lookup_lt_is_Some_2 dateRow c Hlen) as [x ->]. reflexivity.
    - intros j Hj. rewrite lookup_drop.
      destruct (lookup_lt_is_Some_2 dateRow (1 + j)) as [x Hx]; [lia|].
      exists x. split; [exact Hx|].
      specialize (Hall (1 + j)%nat). unfold cellAt in Hall. rewrite Hx in Hall.
      apply Hall. lia. }
  destruct (Hall c) as [d Hd]; [lia|]. rewrite Hd in Hdate.
  exists (imap (buildRow (dateRow :: rest)) (collectDates h dateRow)).
  exists (buildRow (dateRow :: rest) (c - 1) d).
  split; [apply processExcelFile_rows|]. split.
  - rewrite list_lookup_imap, Hdate. reflexivity.
  - split; [exact Hd|]. split; [reflexivity|].
    cbn [buildRow Capacity_reliability_score].
    replace (c - 1 + 1)%nat with c by lia. reflexivity.
Qed.

Lemma aligned_when_nothing_skipped_witness :
  (1 <= 2)%nat
  /\ (forall j, (1 <= j <= 2)%nat ->
                is_Some (headerText plainHost (cellAt [CString "Metric"; CDate jan5; CDate jan6] j)))
  /\ (2 < length [CString "Metric"; CDate jan5; CDate jan6])%nat
  /\ exists rows row,
      processExcelFile plainHost
        ([CString "Metric"; CDate jan5; CDate jan6]
           :: [[CString "Capacity reliability score"; CString "90%"; CString "80%"]])
      = Returned rows
      /\ rows !! (2 - 1)%nat = Some row
      /\ headerText plainHost (cellAt [CString "Metric"; CDate jan5; CDate jan6] 2)
         = Some (Date_ row)
      /\ row = buildRow ([CString "Metric"; CDate jan5; CDate jan6]
                           :: [[CString "Capacity reliability score"; CString "90%";
                                CString "80%"]]) (2 - 1) (Date_ row)
      /\ Capacity_reliability_score row
         = match metricCell ([CString "Metric"; CDate jan5; CDate jan6]
                               :: [[CString "Capacity reliability score"; CString "90%";
                                    CString "80%"]]) 1 2 with
           | Some v => parseNumberOrZero v
           | None => Finite 0
           end.
Proof.
  assert (Hall : forall j, (1 <= j <= 2)%nat ->
            is_Some (headerText plainHost (cellAt [CString "Metric"; CDate jan5; CDate jan6] j))).
  { intros j Hj. destruct j as [|[|[|j]]]; [lia| | |lia]; vm_compute; eauto. }
  split; [lia|]. split; [exact Hall|]. split; [cbn; lia|].
  apply (aligned_when_nothing_skipped plainHost [CString "Metric"; CDate jan5; CDate jan6]
           [[CString "Capacity reliability score"; CString "90%"; CString "80%"]] 2);
    [lia|exact Hall|cbn; lia].
Defined.

(** ** Compiling a batch *)

Lemma gather_rows (h : Host) (decoded : list Grid) :
  forall acc : list ProcessedRow,
    foldl (fun (allRows : list ProcessedRow) data =>
             match processExcelFile h data with
             | Returned rows => (allRows ++ rows)%list
             | Thrown _ => allRows
             end) acc decoded
    = (acc ++ extractedRows h decoded)%list.
Proof.
  unfold extractedRows.
  induction decoded as [|data l IH]; intros acc; cbn [foldl map concat].
  - rewrite app_nil_r. reflexivity.
  - rewrite IH. destruct (processExcelFile h data) as [rows|e].
    + rewrite <- app_assoc. reflexivity.
    + reflexivity.
Qed.

(** X14.  [compileFiles] gives nothing exactly when no file yields a row,
    a file whose processing throws counting for none.  Otherwise the rows
    it shows are the rows of all the files, none dropped and none merged,
    the buffer is the written sheet of those rows in that order, and the
    rows are in date order whenever the collation is a total order. *)
Theorem compileFiles_result :
  forall (h : Host) (ArrayBuffer : Type) (XLSX_write : list Worksheet -> ArrayBuffer)
         (decoded : list Grid),
    (compileFiles h XLSX_write decoded = None <-> extractedRows h decoded = [])
    /\ (forall rows buffer,
          compileFiles h XLSX_write decoded = Some (rows, buffer) ->
          rows ≡ₚ extractedRows h decoded
          /\ buffer = XLSX_write [compiledSheet rows]
          /\ (totalOrder (localeCompare h) -> inOrder (compareRows h) rows = true)).
Proof.
  intros h ArrayBuffer XLSX_write decoded.
  unfold compileFiles. rewrite (gather_rows h decoded []). cbn [app].
  destruct (extractedRows h decoded) as [|row0 rows0] eqn:Hrows.
  - split; [split; reflexivity|]. intros rows buffer [=].
  - split; [split; discriminate|].
    intros rows buffer Heq. unfold generateCompiledExcel in Heq.
    set (gathered := row0 :: rows0) in *. clearbody gathered.
    injection Heq as <- <-. split; [|split].
    + rewrite !Array_sort_Permutation. reflexivity.
    + reflexivity.
    + intros Htotal. apply Sorted_inOrder, Array_sort_Sorted.
      intros a b. apply Htotal.
Qed.

(** ** The calendar *)

Lemma yearOfEra_range (doe : Z) :
  0 <= doe < 146097 ->
  0 <= yearOfEra doe <= 399
  /\ yearStart (yearOfEra doe) <= doe < yearStart (yearOfEra doe) + yearLength (yearOfEra doe).
Proof.
  intros H. unfold yearLength, yearStart, yearOfEra.
  destruct (Z.eqb_spec ((doe - doe / 1460 + doe / 36524 - doe / 146096) / 365) 399);
    Z.div_mod_to_equations; lia.
Qed.

Lemma yearLength_range (yoe : Z) :
  0 <= yoe <= 399 ->
  365 <= yearLength yoe <= 366 /\ 0 <= yearStart yoe /\ yearStart yoe + yearLength yoe <= 146097.
Proof.
  intros H. unfold yearLength, yearStart.
  destruct (Z.eqb_spec yoe 399); Z.div_mod_to_equations; lia.
Qed.

Lemma yearStart_unique (a b doe : Z) :
  0 <= a <= 399 -> 0 <= b <= 399 ->
  yearStart a <= doe < yearStart a + yearLength a ->
  yearStart b <= doe < yearStart b + yearLength b -> a = b.
Proof.
  unfold yearLength, yearStart. intros Ha Hb.
  destruct (Z.eqb_spec a 399); destruct (Z.eqb_spec b 399); Z.div_mod_to_equations; lia.
Qed.

Lemma monthOfDay_range (doy : Z) :
  0 <= doy <= 365 ->
  0 <= (5 * doy + 2) / 153 <= 11
  /\ 1 <= doy - monthStart ((5 * doy + 2) / 153) + 1
  /\ ((5 * doy + 2) / 153 < 11 ->
      doy - monthStart ((5 * doy + 2) / 153) + 1
      <= monthStart ((5 * doy + 2) / 153 + 1) - monthStart ((5 * doy + 2) / 153)).
Proof. intros H. unfold monthStart. Z.div_mod_to_equations. lia. Qed.

Lemma monthOfDay_unique (mp d : Z) :
  0 <= mp <= 11 -> 1 <= d ->
  (mp < 11 -> d <= monthStart (mp + 1) - monthStart mp) -> (mp = 11 -> d <= 29) ->
  (5 * (monthStart mp + d - 1) + 2) / 153 = mp.
Proof. intros. unfold monthStart in *. Z.div_mod_to_equations. lia. Qed.

Lemma monthStart_range (mp : Z) :
  0 <= mp <= 11 -> 0 <= monthStart mp <= 337 /\ (mp < 11 -> monthStart (mp + 1) <= 337)
                   /\ (mp = 11 -> monthStart mp = 337).
Proof. intros H. unfold monthStart. Z.div_mod_to_equations. lia. Qed.

Lemma monthIndex_range (m : Z) :
  1 <= m <= 12 ->
  0 <= monthIndex m <= 11
  /\ (if monthIndex m <? 10 then monthIndex m + 3 else monthIndex m - 9) = m
  /\ (monthIndex m = 11 <-> m = 2).
Proof.
  intros H. unfold monthIndex.
  destruct (Z.ltb_spec 2 m); [destruct (Z.ltb_spec (m - 3) 10)|destruct (Z.ltb_spec (m + 9) 10)]; lia.
Qed.

Lemma monthIndex_inverse (mp : Z) :
  0 <= mp <= 11 ->
  1 <= (if mp <? 10 then mp + 3 else mp - 9) <= 12
  /\ monthIndex (if mp <? 10 then mp + 3 else mp - 9) = mp.
Proof.
  intros H. unfold monthIndex.
  destruct (Z.ltb_spec mp 10); [destruct (Z.ltb_spec 2 (mp + 3))|destruct (Z.ltb_spec 2 (mp - 9))]; lia.
Qed.

(** The day number of a date, from the year of the cycle the date's March
    year falls in. *)
Lemma daysFromCivil_parts (y m d era yoe : Z) :
  y - (if m <=? 2 then 1 else 0) = yoe + era * 400 -> 0 <= yoe <= 399 ->
  JsDate.daysFromCivil y m d
  = era * 146097 + (yearStart yoe + monthStart (monthIndex m) + d - 1) - 719468.
Proof.
  intros Hy Hyoe. unfold JsDate.daysFromCivil, yearStart, monthStart, monthIndex.
  replace (if m <=? 2 then y - 1 else y) with (yoe + era * 400)
    by (destruct (m <=? 2); lia).
  rewrite Z.div_add, (Z.div_small yoe 400), Z.add_0_l by lia.
  replace (yoe + era * 400 - era * 400) with yoe by lia.
  lia.
Qed.

Lemma civilFromDays_parts (z era doe : Z) :
  z + 719468 = era * 146097 + doe -> 0 <= doe < 146097 ->
  JsDate.civilFromDays z
  = let yoe := yearOfEra doe in
    let doy := doe - yearStart yoe in
    let mp := (5 * doy + 2) / 153 in
    let m := if mp <? 10 then mp + 3 else mp - 9 in
    (yoe + era * 400 + (if m <=? 2 then 1 else 0), m, doy - monthStart mp + 1).
Proof.
  intros Hz Hdoe. unfold JsDate.civilFromDays.
  rewrite Hz. rewrite (Z.add_comm (era * 146097) doe), Z.div_add, (Z.div_small doe) by lia.
  rewrite Z.add_0_l. replace (doe + era * 146097 - era * 146097) with doe by lia.
  reflexivity.
Qed.

Lemma marchYear_split (y' : Z) :
  y' = y' mod 400 + y' / 400 * 400 /\ 0 <= y' mod 400 <= 399.
Proof. Z.div_mod_to_equations. lia. Qed.

Lemma daysInMonth_parts (y m era yoe : Z) :
  1 <= m <= 12 ->
  y - (if m <=? 2 then 1 else 0) = yoe + era * 400 -> 0 <= yoe <= 399 ->
  JsDate.daysInMonth y m
  = if m =? 2 then yearLength yoe - 337
    else monthStart (monthIndex m + 1) - monthStart (monthIndex m).
Proof.
  intros Hm Hy Hyoe. unfold JsDate.daysInMonth.
  rewrite (daysFromCivil_parts y m 1 era yoe Hy Hyoe).
  destruct (Z.eqb_spec m 12) as [->|Hm12].
  - change (if 12 <=? 2 then 1 else 0) with 0 in Hy.
    rewrite (daysFromCivil_parts (y + 1) 1 1 era yoe)
      by (change (if 1 <=? 2 then 1 else 0) with 1; lia).
    change (12 =? 2) with false. cbv iota.
    change (monthIndex 1) with 10. change (monthIndex 12) with 9.
    change (9 + 1) with 10. lia.
  - destruct (Z.eqb_spec m 2) as [->|Hm2].
    + change (if 2 <=? 2 then 1 else 0) with 1 in Hy.
      change (2 + 1) with 3. change (monthIndex 3) with 0. change (monthIndex 2) with 11.
      change (monthStart 0) with 0. change (monthStart 11) with 337.
      unfold yearLength.
      destruct (Z.eqb_spec yoe 399) as [->|Hyoe'].
      * rewrite (daysFromCivil_parts y 3 1 (era + 1) 0)
          by (change (if 3 <=? 2 then 1 else 0) with 0; lia).
        change (monthIndex 3) with 0. change (monthStart 0) with 0.
        change (yearStart 0) with 0. change (yearStart 399) with 145731. lia.
      * rewrite (daysFromCivil_parts y 3 1 era (yoe + 1))
          by (change (if 3 <=? 2 then 1 else 0) with 0; lia).
        change (monthIndex 3) with 0. change (monthStart 0) with 0. lia.
    + assert (Hsame : (if m + 1 <=? 2 then 1 else 0) = (if m <=? 2 then 1 else 0))
        by (destruct (Z.leb_spec (m + 1) 2); destruct (Z.leb_spec m 2); lia).
      rewrite (daysFromCivil_parts y (m + 1) 1 era yoe) by (rewrite ?Hsame; assumption).
      assert (Hidx : monthIndex (m + 1) = monthIndex m + 1).
      { unfold monthIndex.
        destruct (Z.ltb_spec 2 (m + 1)); destruct (Z.ltb_spec 2 m); lia. }
      rewrite Hidx. lia.
Qed.

(** Every day number is the day number of its date, and its date is a
    date of the calendar. *)
Lemma daysFromCivil_civilFromDays (z : Z) :
  let '(y, m, d) := JsDate.civilFromDays z in
  JsDate.daysFromCivil y m d = z /\ 1 <= m <= 12 /\ 1 <= d <= JsDate.daysInMonth y m.
Proof.
  pose (era := (z + 719468) / 146097). pose (doe := (z + 719468) mod 146097).
  assert (Hz : z + 719468 = era * 146097 + doe /\ 0 <= doe < 146097)
    by (unfold era, doe; Z.div_mod_to_equations; lia).
  destruct Hz as [Hz Hdoe].
  rewrite (civilFromDays_parts z era doe Hz Hdoe). cbv zeta.
  destruct (yearOfEra_range doe Hdoe) as (Hyoe & Hstart).
  destruct (yearLength_range _ Hyoe) as (Hlen & _ & _).
  set (yoe := yearOfEra doe) in *. set (doy := doe - yearStart yoe).
  assert (Hdoy : 0 <= doy <= 365) by (unfold doy; lia).
  destruct (monthOfDay_range doy Hdoy) as (Hmp & Hd1 & Hd2).
  set (mp := (5 * doy + 2) / 153) in *.
  destruct (monthIndex_inverse mp Hmp) as (Hm & Hidx).
  set (m := if mp <? 10 then mp + 3 else mp - 9) in *.
  assert (Hy : yoe + era * 400 + (if m <=? 2 then 1 else 0) - (if m <=? 2 then 1 else 0)
               = yoe + era * 400) by lia.
  split; [|split; [exact Hm|split; [exact Hd1|]]].
  - rewrite (daysFromCivil_parts _ m _ era yoe Hy Hyoe), Hidx. unfold doy. lia.
  - rewrite (daysInMonth_parts _ m era yoe Hm Hy Hyoe), Hidx.
    destruct (monthIndex_range m Hm) as (_ & _ & Hfeb). rewrite Hidx in Hfeb.
    destruct (monthStart_range mp Hmp) as (_ & _ & H11).
    destruct (Z.eqb_spec m 2) as [Hm2|Hm2].
    + rewrite H11 by (apply Hfeb, Hm2). unfold doy. lia.
    + apply Hd2. lia.
Qed.

(** The date of the day number of a date of the calendar is that date. *)
Lemma civilFromDays_daysFromCivil (y m d : Z) :
  1 <= m <= 12 -> 1 <= d <= JsDate.daysInMonth y m ->
  JsDate.civilFromDays (JsDate.daysFromCivil y m d) = (y, m, d).
Proof.
  intros Hm Hd.
  pose (y' := y - (if m <=? 2 then 1 else 0)).
  destruct (marchYear_split y') as (Hy & Hyoe).
  set (yoe := y' mod 400) in *. set (era := y' / 400) in *.
  rewrite (daysInMonth_parts y m era yoe Hm Hy Hyoe) in Hd.
  rewrite (daysFromCivil_parts y m d era yoe Hy Hyoe).
  destruct (monthIndex_range m Hm) as (Hmp & Hinv & Hfeb).
  set (mp := monthIndex m) in *.
  destruct (monthStart_range mp Hmp) as (Hms & Hms1 & Hms11).
  destruct (yearLength_range yoe Hyoe) as (Hlen & Hstart0 & Hend).
  assert (Hb1 : mp < 11 -> d <= monthStart (mp + 1) - monthStart mp).
  { intros Hlt. destruct (Z.eqb_spec m 2) as [Hm2|Hm2]; [apply Hfeb in Hm2|]; lia. }
  assert (Hb2 : mp = 11 -> d <= yearLength yoe - 337).
  { intros H11. apply Hfeb in H11. destruct (Z.eqb_spec m 2); [lia|contradiction]. }
  set (doy := monthStart mp + d - 1).
  assert (Hdoy : 0 <= doy < yearLength yoe).
  { unfold doy. destruct (Z.eq_dec mp 11) as [H11|H11].
    - rewrite (Hms11 H11). specialize (Hb2 H11). lia.
    - assert (mp < 11) by lia. specialize (Hb1 H). specialize (Hms1 H). lia. }
  set (doe := yearStart yoe + doy).
  assert (Hdoe : 0 <= doe < 146097) by (unfold doe; lia).
  rewrite (civilFromDays_parts _ era doe) by (unfold doe, doy; lia || exact Hdoe).
  cbv zeta.
  destruct (yearOfEra_range doe Hdoe) as (Hyoe' & Hstart').
  assert (Hsame : yearOfEra doe = yoe).
  { apply (yearStart_unique _ _ doe Hyoe' Hyoe Hstart'). unfold doe. lia. }
  rewrite Hsame.
  replace (doe - yearStart yoe) with doy by (unfold doe; lia).
  assert (Hmp' : (5 * doy + 2) / 153 = mp).
  { unfold doy. apply monthOfDay_unique; [exact Hmp|lia|exact Hb1|].
    intros H11. specialize (Hb2 H11). lia. }
  rewrite Hmp', Hinv. f_equal; [f_equal|]; unfold doy, y' in *; lia.
Qed.

(** ** The text of dates *)

Lemma forallRange_spec (f : Z -> bool) (n : nat) :
  forall z, forallRange f n z = true -> forall x, z <= x < z + Z.of_nat n -> f x = true.
Proof.
  induction n as [|n IH]; intros z Hall x Hx; [lia|].
  cbn [forallRange] in Hall. apply andb_prop in Hall as [Hz Hrest].
  destruct (Z.eq_dec x z) as [->|Hne]; [exact Hz|].
  apply (IH (z + 1) Hrest). lia.
Qed.

Lemma numberEqb_eq (a b : number) : numberEqb a b = true -> a = b.
Proof.
  destruct a as [|s|[p1 p2]], b as [|s'|[q1 q2]]; cbn; try discriminate; try reflexivity.
  - intros Hs. apply Bool.eqb_prop in Hs. congruence.
  - intros Hq. apply andb_prop in Hq as [Hn Hd].
    apply Z.eqb_eq in Hn. apply Pos.eqb_eq in Hd. subst. reflexivity.
Qed.

Lemma yearTextCheck_all : forallRange yearTextCheck (Z.to_nat 10000) 0 = true.
Proof. vm_compute. reflexivity. Qed.

Lemma fourDigitCheck_all : forallRange fourDigitCheck (Z.to_nat 9000) 1000 = true.
Proof. vm_compute. reflexivity. Qed.

Lemma twoDigitCheck_all : forallRange twoDigitCheck (Z.to_nat 100) 0 = true.
Proof. vm_compute. reflexivity. Qed.

Lemma yearText (y : Z) :
  0 <= y <= 9999 ->
  noDash (JsString.ofZ y) = true
  /\ JsString.isEmpty (JsString.ofZ y) = false
  /\ JsString.startsWith (JsString.ofZ y) "T" = false
  /\ JsNumber.ofString (JsString.ofZ y) = JsNumber.ofZ y.
Proof.
  intros Hy.
  assert (Hc := forallRange_spec _ _ _ yearTextCheck_all y).
  rewrite Z2Nat.id in Hc by lia. specialize (Hc ltac:(lia)).
  unfold yearTextCheck in Hc.
  apply andb_prop in Hc as [Hc Hnum]. apply andb_prop in Hc as [Hc Ht].
  apply andb_prop in Hc as [Hdash Hempty].
  apply negb_true_iff in Hempty, Ht. apply numberEqb_eq in Hnum. auto.
Qed.

Lemma fourDigitText (y : Z) :
  1000 <= y <= 9999 -> JsDate.digitsN 4 0 (JsString.ofZ y) = Some (y, "").
Proof.
  intros Hy.
  assert (Hc := forallRange_spec _ _ _ fourDigitCheck_all y).
  rewrite Z2Nat.id in Hc by lia. specialize (Hc ltac:(lia)).
  unfold fourDigitCheck in Hc.
  destruct (JsDate.digitsN 4 0 (JsString.ofZ y)) as [[v [|c r]]|]; try discriminate.
  apply Z.eqb_eq in Hc. subst. reflexivity.
Qed.

Lemma twoDigitText (n : Z) :
  0 <= n <= 99 ->
  noDash (JsString.padStart2 (JsString.ofZ n)) = true
  /\ JsNumber.ofString (JsString.padStart2 (JsString.ofZ n)) = JsNumber.ofZ n
  /\ JsDate.digitsN 2 0 (JsString.padStart2 (JsString.ofZ n)) = Some (n, "").
Proof.
  intros Hn.
  assert (Hc := forallRange_spec _ _ _ twoDigitCheck_all n).
  rewrite Z2Nat.id in Hc by lia. specialize (Hc ltac:(lia)).
  unfold twoDigitCheck in Hc.
  apply andb_prop in Hc as [Hc Hdig]. apply andb_prop in Hc as [Hdash Hnum].
  apply numberEqb_eq in Hnum.
  destruct (JsDate.digitsN 2 0 _) as [[v [|c r]]|]; try discriminate.
  apply Z.eqb_eq in Hdig. subst. auto.
Qed.

Lemma split_noDash (a : string) : noDash a = true -> JsString.split "-" a = [a].
Proof.
  induction a as [|c r IH]; intros Ha; [reflexivity|].
  cbn [noDash] in Ha. apply andb_prop in Ha as [Hc Hr].
  apply negb_true_iff in Hc. cbn [JsString.split]. rewrite Hc, (IH Hr). reflexivity.
Qed.

Lemma split_dash (a b : string) :
  noDash a = true -> JsString.split "-" (a ++ String "-" b) = a :: JsString.split "-" b.
Proof.
  induction a as [|c r IH]; intros Ha; [reflexivity|].
  cbn [noDash] in Ha. apply andb_prop in Ha as [Hc Hr].
  apply negb_true_iff in Hc.
  change (String c r ++ String "-" b) with (String c (r ++ String "-" b)).
  cbn [JsString.split]. rewrite Hc, (IH Hr). reflexivity.
Qed.

Lemma digitsN_app (n : nat) (rest : string) :
  forall (acc : Z) (s : string) (v : Z),
    JsDate.digitsN n acc s = Some (v, "") -> JsDate.digitsN n acc (s ++ rest) = Some (v, rest).
Proof.
  induction n as [|n IH]; intros acc s v; cbn [JsDate.digitsN].
  - intros [= <- ->]. reflexivity.
  - destruct s as [|c r]; [discriminate|].
    change (String c r ++ rest) with (String c (r ++ rest)). cbn [JsDate.digitsN].
    destruct (JsNumber.digitValue c); [apply IH|discriminate].
Qed.

Lemma split_isoText (y m d : Z) :
  0 <= y <= 9999 -> 0 <= m <= 99 -> 0 <= d <= 99 ->
  JsString.split "-" (isoText y m d)
  = [JsString.ofZ y; JsString.padStart2 (JsString.ofZ m); JsString.padStart2 (JsString.ofZ d)].
Proof.
  intros Hy Hm Hd. unfold isoText.
  destruct (yearText y Hy) as (Hdy & _).
  destruct (twoDigitText m Hm) as (Hdm & _).
  destruct (twoDigitText d Hd) as (Hdd & _).
  change (JsString.ofZ y ++ "-" ++ ?r) with (JsString.ofZ y ++ String "-" r).
  rewrite (split_dash _ _ Hdy).
  change (?a ++ "-" ++ ?r) with (a ++ String "-" r).
  rewrite (split_dash _ _ Hdm), (split_noDash _ Hdd). reflexivity.
Qed.

Lemma Day_of_days (day : Z) : JsDate.Day (day * JsDate.msPerDay) = day.
Proof. unfold JsDate.Day, JsDate.msPerDay. apply Z.div_mul. lia. Qed.

Lemma toIsoDateString_civil (t y m d : Z) :
  JsDate.civilFromDays (JsDate.Day t) = (y, m, d) ->
  toIsoDateString (Some t) = isoText y m d.
Proof.
  intros Hc. unfold toIsoDateString, isoText, JsDate.getUTCFullYear, JsDate.getUTCMonth,
    JsDate.getUTCDate. rewrite Hc. cbn [fst snd fmap option_fmap option_map integerText].
  replace (Z.succ (m - 1)) with m by lia. reflexivity.
Qed.

(** X16.  The text of a valid [Date] is the text of a date of the
    calendar, the one of the UTC day the time value falls in, also before
    1970; the month is from 1 to 12 and the day one of that month. *)
Theorem toIsoDateString_is_calendar_date :
  forall t : Z,
  exists y m d,
    validDate y m d
    /\ JsDate.daysFromCivil y m d = t / 86400000
    /\ toIsoDateString (Some t) = isoText y m d.
Proof.
  intros t.
  pose proof (daysFromCivil_civilFromDays (JsDate.Day t)) as Hround.
  destruct (JsDate.civilFromDays (JsDate.Day t)) as [[y m] d] eqn:Hc.
  destruct Hround as (Hdays & Hm & Hd).
  exists y, m, d. split; [split; assumption|]. split; [exact Hdays|].
  apply toIsoDateString_civil, Hc.
Qed.

Lemma truncQ_inject_Z (z : Z) : JsNumber.truncQ (inject_Z z) = z.
Proof. unfold JsNumber.truncQ, inject_Z. cbn [Qnum Qden]. apply Z.quot_1_r. Qed.

Lemma daysInMonth_range (y m : Z) : 1 <= m <= 12 -> 28 <= JsDate.daysInMonth y m <= 31.
Proof.
  intros Hm.
  destruct (marchYear_split (y - (if m <=? 2 then 1 else 0))) as (Hy & Hyoe).
  rewrite (daysInMonth_parts y m _ _ Hm Hy Hyoe).
  destruct (yearLength_range _ Hyoe) as (Hlen & _).
  destruct (monthIndex_range m Hm) as (Hmp & _ & Hfeb).
  destruct (Z.eqb_spec m 2) as [Hm2|Hm2]; [lia|].
  assert (Hlt : monthIndex m < 11) by lia.
  revert Hmp Hlt. generalize (monthIndex m) as mp. intros mp Hmp Hlt.
  unfold monthStart. Z.div_mod_to_equations. lia.
Qed.

Lemma daysFromCivil_day (y m d : Z) :
  JsDate.daysFromCivil y m d = JsDate.daysFromCivil y m 1 + d - 1.
Proof. unfold JsDate.daysFromCivil. lia. Qed.

Lemma daysFromCivil_bound (y m : Z) :
  0 <= y <= 9999 -> 1 <= m <= 12 ->
  -1000000 <= JsDate.daysFromCivil y m 1 <= 3000000.
Proof.
  intros Hy Hm. unfold JsDate.daysFromCivil.
  destruct (Z.leb_spec m 2); destruct (Z.ltb_spec 2 m); try lia;
    Z.div_mod_to_equations; lia.
Qed.

Lemma TimeClip_days (day : Z) :
  -100000000 <= day <= 100000000 ->
  JsDate.TimeClip (day * JsDate.msPerDay) = Some (day * JsDate.msPerDay).
Proof.
  intros Hday. unfold JsDate.TimeClip, JsDate.msPerDay.
  destruct (Z.leb_spec (Z.abs (day * 86400000)) 8640000000000000); [reflexivity|lia].
Qed.

(** [Date.UTC] on a date of the calendar, the month counted from 0. *)
Lemma UTC_valid (y m d : Z) :
  100 <= y <= 9999 -> validDate y m d ->
  JsDate.UTC (JsNumber.ofZ y) (JsNumber.ofZ (m - 1)) (JsNumber.ofZ d)
  = Some (JsDate.daysFromCivil y m d * JsDate.msPerDay).
Proof.
  intros Hy (Hm & Hd). unfold JsDate.UTC, JsDate.MakeDay, JsNumber.ofZ.
  rewrite !truncQ_inject_Z.
  destruct (Z.leb_spec 0 y); [|lia]. destruct (Z.leb_spec y 99); [lia|].
  cbn [andb]. rewrite !truncQ_inject_Z.
  replace ((m - 1) / 12) with 0 by (Z.div_mod_to_equations; lia).
  replace ((m - 1) mod 12 + 1) with m by (Z.div_mod_to_equations; lia).
  rewrite Z.add_0_r.
  pose proof (daysFromCivil_bound y m ltac:(lia) Hm) as Hb.
  pose proof (daysInMonth_range y m Hm) as Hdim.
  rewrite TimeClip_days by lia.
  rewrite <- daysFromCivil_day. apply TimeClip_days.
  rewrite daysFromCivil_day. lia.
Qed.

Lemma toIsoDateString_days (y m d : Z) :
  validDate y m d ->
  toIsoDateString (Some (JsDate.daysFromCivil y m d * JsDate.msPerDay)) = isoText y m d.
Proof.
  intros (Hm & Hd). apply toIsoDateString_civil.
  rewrite Day_of_days. apply civilFromDays_daysFromCivil; assumption.
Qed.

(** X17.  A header cell holding a serial number gives, in every zone,
    the text of the very date the date-code routine reads in it, as
    long as that is a date of the calendar in the years 100 to 9999. *)
Theorem serial_header_keeps_date :
  forall (h : Host) (n : number) (y m d : Z),
    JsNumber.truthy n = true ->
    parse_date_code h n = Some (y, m, d) ->
    100 <= y <= 9999 -> validDate y m d ->
    headerText h (CNumber n) = Some (isoText y m d).
Proof.
  intros h n y m d Hn Hcode Hy Hvalid.
  unfold headerText, headerDate. cbn [ToBoolean strictEqString]. rewrite Hn.
  cbn [negb andb]. rewrite Hcode, (UTC_valid y m d Hy Hvalid).
  cbn [fmap option_fmap option_map]. f_equal. apply toIsoDateString_days, Hvalid.
Qed.

Lemma serial_header_keeps_date_witness :
  JsNumber.truthy (Finite 45296) = true
  /\ parse_date_code plainHost (Finite 45296) = Some (2024, 1, 5)
  /\ 100 <= 2024 <= 9999
  /\ validDate 2024 1 5
  /\ headerText plainHost (CNumber (Finite 45296)) = Some (isoText 2024 1 5).
Proof.
  assert (Hvalid : validDate 2024 1 5) by (unfold validDate; vm_compute; intuition discriminate).
  split; [reflexivity|]. split; [vm_compute; reflexivity|]. split; [lia|].
  split; [exact Hvalid|].
  apply (serial_header_keeps_date plainHost (Finite 45296) 2024 1 5);
    [reflexivity|vm_compute; reflexivity|lia|exact Hvalid].
Defined.

Lemma isEmpty_append (a b : string) :
  JsString.isEmpty a = false -> JsString.isEmpty (a ++ b) = false.
Proof. destruct a; [discriminate|reflexivity]. Qed.

Lemma not_Total (a b : string) :
  JsString.isEmpty a = false -> JsString.startsWith a "T" = false ->
  String.eqb (a ++ b) "Total" = false.
Proof.
  destruct a as [|c r]; [discriminate|]. intros _ Hstart.
  change (String c r ++ b) with (String c (r ++ b)).
  unfold JsString.startsWith in Hstart. cbn [String.prefix] in Hstart.
  cbn [String.eqb]. destruct (Ascii.eqb_spec c "T") as [->|Hc]; [|reflexivity].
  destruct (ascii_dec "T" "T") as [_|Hne]; [|contradiction].
  destruct r; discriminate.
Qed.

Lemma isoFields_isoText (y m d : Z) :
  1000 <= y <= 9999 -> validDate y m d ->
  JsDate.isoFields (isoText y m d) = Some (JsDate.mkIso y m d None true).
Proof.
  intros Hy (Hm & Hd).
  pose proof (daysInMonth_range y m Hm) as Hdim.
  destruct (twoDigitText m ltac:(lia)) as (_ & _ & Hmm).
  destruct (twoDigitText d ltac:(lia)) as (_ & _ & Hdd).
  unfold JsDate.isoFields, JsDate.isoDatePart, isoText.
  rewrite (digitsN_app 4 _ 0 _ y (fourDigitText y Hy)).
  cbn [mbind option_bind].
  change ("-" ++ ?r) with (String "-" r). cbn [JsDate.expect Ascii.eqb Bool.eqb].
  cbn [mbind option_bind].
  rewrite (digitsN_app 2 _ 0 _ m Hmm). cbn [mbind option_bind].
  change ("-" ++ ?r) with (String "-" r).
  cbn [JsDate.expect Ascii.eqb Bool.eqb]. cbn [mbind option_bind].
  rewrite Hdd. cbn [mbind option_bind].
  destruct (Z.leb_spec 1 m); [|lia]. destruct (Z.leb_spec m 12); [|lia].
  destruct (Z.leb_spec 1 d); [|lia]. destruct (Z.leb_spec d (JsDate.daysInMonth y m)); [|lia].
  reflexivity.
Qed.

(** X18.  A header text already in the form [YYYY-MM-DD], for a date of
    the calendar in the years 1000 to 9999, is read as a UTC date and
    given back as it is, in every zone. *)
Theorem canonical_header_is_kept :
  forall (h : Host) (y m d : Z),
    1000 <= y <= 9999 -> validDate y m d ->
    headerText h (CString (isoText y m d)) = Some (isoText y m d).
Proof.
  intros h y m d Hy Hvalid.
  destruct (yearText y ltac:(lia)) as (_ & Hempty & Hstart & _).
  unfold headerText, headerDate. cbn [ToBoolean strictEqString].
  unfold isoText at 1 2.
  rewrite (isEmpty_append _ _ Hempty), (not_Total _ _ Hempty Hstart).
  cbn [negb andb]. fold (isoText y m d).
  unfold Date_parse. rewrite (isoFields_isoText y m d Hy Hvalid).
  cbn [JsDate.isoYear JsDate.isoMonth JsDate.isoDay JsDate.isoTime JsDate.isoUTC default].
  rewrite Z.add_0_r.
  destruct Hvalid as (Hm & Hd).
  pose proof (daysFromCivil_bound y m ltac:(lia) Hm) as Hb.
  pose proof (daysInMonth_range y m Hm) as Hdim.
  rewrite TimeClip_days by (rewrite daysFromCivil_day; lia).
  cbn [fmap option_fmap option_map]. f_equal.
  apply toIsoDateString_days. split; assumption.
Qed.

Lemma canonical_header_is_kept_witness :
  1000 <= 2024 <= 9999
  /\ validDate 2024 2 29
  /\ headerText plainHost (CString (isoText 2024 2 29)) = Some (isoText 2024 2 29).
Proof.
  assert (Hvalid : validDate 2024 2 29) by (unfold validDate; vm_compute; intuition discriminate).
  split; [lia|]. split; [exact Hvalid|].
  apply (canonical_header_is_kept plainHost 2024 2 29); [lia|exact Hvalid].
Defined.

(** X19.  In the preview a date text [YYYY-MM-DD] is shown as
    [MM/DD/YYYY]; so is the text of every valid [Date] of the years 0 to
    9999. *)
Theorem displayDate_of_date_text :
  (forall y m d : Z,
     0 <= y <= 9999 -> 0 <= m <= 99 -> 0 <= d <= 99 ->
     displayDate (isoText y m d)
     = JsString.padStart2 (JsString.ofZ m) ++ "/" ++ JsString.padStart2 (JsString.ofZ d)
       ++ "/" ++ JsString.ofZ y)
  /\ (forall t : Z,
        let '(y, m, d) := JsDate.civilFromDays (JsDate.Day t) in
        0 <= y <= 9999 ->
        displayDate (toIsoDateString (Some t))
        = JsString.padStart2 (JsString.ofZ m) ++ "/" ++ JsString.padStart2 (JsString.ofZ d)
          ++ "/" ++ JsString.ofZ y).
Proof.
  assert (Htext : forall y m d : Z,
            0 <= y <= 9999 -> 0 <= m <= 99 -> 0 <= d <= 99 ->
            displayDate (isoText y m d)
            = JsString.padStart2 (JsString.ofZ m) ++ "/"
              ++ JsString.padStart2 (JsString.ofZ d) ++ "/" ++ JsString.ofZ y).
  { intros y m d Hy Hm Hd. unfold displayDate.
    rewrite (split_isoText y m d Hy Hm Hd). reflexivity. }
  split; [exact Htext|].
  intros t.
  pose proof (daysFromCivil_civilFromDays (JsDate.Day t)) as Hround.
  destruct (JsDate.civilFromDays (JsDate.Day t)) as [[y m] d] eqn:Hc.
  destruct Hround as (_ & Hm & Hd). intros Hy.
  pose proof (daysInMonth_range y m Hm) as Hdim.
  rewrite (toIsoDateString_civil t y m d Hc). apply Htext; lia.
Qed.

(** ** Week numbers *)

Lemma Qred_inject_Z (z : Z) : Qred (inject_Z z) = inject_Z z.
Proof.
  unfold Qred, inject_Z.
  pose proof (Z.ggcd_gcd z 1) as Hg. pose proof (Z.ggcd_correct_divisors z 1) as Hdiv.
  destruct (Z.ggcd z 1) as [g [aa bb]]. cbn [fst] in Hg.
  rewrite Z.gcd_1_r in Hg. subst g. destruct Hdiv as [Ha Hb].
  rewrite !Z.mul_1_l in *. subst. reflexivity.
Qed.

Lemma pred_ofZ (m : Z) : JsNumber.pred (JsNumber.ofZ m) = JsNumber.ofZ (m - 1).
Proof.
  unfold JsNumber.pred, JsNumber.ofZ. f_equal.
  rewrite <- (Qred_inject_Z (m - 1)). apply Qred_complete.
  unfold inject_Z, Qeq. cbn. lia.
Qed.

Lemma Qceiling_sevenths (x : Q) (n : Z) :
  (x == inject_Z n / 7)%Q -> Qceiling x = (n + 6) / 7.
Proof.
  intros Hx. rewrite Hx. unfold Qceiling, Qfloor, Qdiv, Qmult, Qinv, Qopp, inject_Z.
  cbn [Qnum Qden]. rewrite Z.mul_1_r. change (Z.pos (1 * 7)) with 7.
  Z.div_mod_to_equations. lia.
Qed.

Lemma dayOfYear_range (y m d : Z) :
  validDate y m d ->
  1 <= JsDate.daysFromCivil y m d - JsDate.daysFromCivil y 1 1 + 1 <= 366.
Proof.
  intros (Hm & Hd).
  destruct (marchYear_split (y - 1)) as (Hy & Hyoe).
  set (yoe := (y - 1) mod 400) in *. set (era := (y - 1) / 400) in *.
  destruct (yearLength_range yoe Hyoe) as (Hlen & _ & _).
  assert (Hjan : JsDate.daysFromCivil y 1 1
                 = era * 146097 + (yearStart yoe + 306) - 719468).
  { rewrite (daysFromCivil_parts y 1 1 era yoe)
      by (change (if 1 <=? 2 then 1 else 0) with 1; lia).
    change (monthStart (monthIndex 1)) with 306. lia. }
  pose proof (daysInMonth_parts y 2 era yoe ltac:(lia)) as Hfeb.
  change (if 2 <=? 2 then 1 else 0) with 1 in Hfeb. specialize (Hfeb Hy Hyoe).
  change (if 2 =? 2 then yearLength yoe - 337
          else monthStart (monthIndex 2 + 1) - monthStart (monthIndex 2))
    with (yearLength yoe - 337) in Hfeb.
  assert (Hfeb1 : JsDate.daysFromCivil y 2 1
                  = era * 146097 + (yearStart yoe + 337) - 719468).
  { rewrite (daysFromCivil_parts y 2 1 era yoe)
      by (change (if 2 <=? 2 then 1 else 0) with 1; lia).
    change (monthStart (monthIndex 2)) with 337. lia. }
  assert (Hmar : JsDate.daysFromCivil y 3 1
                 = era * 146097 + (yearStart yoe + yearLength yoe) - 719468).
  { unfold JsDate.daysInMonth in Hfeb.
    change (if 2 =? 12 then y + 1 else y) with y in Hfeb.
    change (if 2 =? 12 then 1 else 2 + 1) with 3 in Hfeb. lia. }
  rewrite (daysFromCivil_day y m d).
  destruct (Z.leb_spec m 2) as [Hle|Hgt].
  - assert (Hcase : m = 1 \/ m = 2) by lia. destruct Hcase as [-> | ->].
    + pose proof (daysInMonth_range y 1 ltac:(lia)). lia.
    + lia.
  - destruct (marchYear_split y) as (Hy' & Hyoe').
    set (yoe' := y mod 400) in *. set (era' := y / 400) in *.
    assert (Hmy : y - (if m <=? 2 then 1 else 0) = yoe' + era' * 400)
      by (destruct (Z.leb_spec m 2); lia).
    pose proof (daysInMonth_parts y m era' yoe' Hm Hmy Hyoe') as Hdim.
    destruct (Z.eqb_spec m 2) as [?|_]; [lia|].
    pose proof (daysFromCivil_parts y m 1 era' yoe' Hmy Hyoe') as Hm1.
    assert (Hmy3 : y - (if 3 <=? 2 then 1 else 0) = yoe' + era' * 400)
      by (change (if 3 <=? 2 then 1 else 0) with 0; lia).
    pose proof (daysFromCivil_parts y 3 1 era' yoe' Hmy3 Hyoe') as Hm3.
    change (monthStart (monthIndex 3)) with 0 in Hm3.
    assert (Hidx : monthIndex m = m - 3)
      by (unfold monthIndex; destruct (Z.ltb_spec 2 m); lia).
    rewrite Hidx in *.
    assert (Hms : 0 <= monthStart (m - 3) /\ monthStart (m - 3 + 1) <= 306)
      by (unfold monthStart; Z.div_mod_to_equations; lia).
    lia.
Qed.

Lemma weekOf_range (y m d : Z) : validDate y m d -> 1 <= weekOf y m d <= 54.
Proof.
  intros Hvalid. pose proof (dayOfYear_range y m d Hvalid) as Hdoy.
  unfold weekOf. cbv zeta.
  set (doy := JsDate.daysFromCivil y m d - JsDate.daysFromCivil y 1 1 + 1) in *.
  Z.div_mod_to_equations. lia.
Qed.

Lemma weekOf_jan1 (y : Z) : weekOf y 1 1 = 1.
Proof.
  unfold weekOf. cbv zeta.
  replace (JsDate.daysFromCivil y 1 1 - JsDate.daysFromCivil y 1 1 + 1) with 1 by lia.
  Z.div_mod_to_equations. lia.
Qed.

Lemma getWeekNumber_isoText (y m d : Z) :
  100 <= y <= 9999 -> validDate y m d ->
  getWeekNumber (isoText y m d) = JsNumber.ofZ (weekOf y m d).
Proof.
  intros Hy Hvalid. pose proof Hvalid as (Hm & Hd).
  pose proof (daysInMonth_range y m Hm) as Hdim.
  destruct (yearText y ltac:(lia)) as (_ & _ & _ & Hny).
  destruct (twoDigitText m ltac:(lia)) as (_ & Hnm & _).
  destruct (twoDigitText d ltac:(lia)) as (_ & Hnd & _).
  unfold getWeekNumber.
  rewrite (split_isoText y m d) by lia.
  cbn [map lookup list_lookup default]. unfold id. rewrite Hny, Hnm, Hnd, pred_ofZ.
  rewrite (UTC_valid y m d Hy Hvalid).
  assert (Hjan : validDate y 1 1).
  { split; [lia|]. pose proof (daysInMonth_range y 1 ltac:(lia)). lia. }
  pose proof (UTC_valid y 1 1 Hy Hjan) as Hutc.
  change (JsNumber.ofZ (1 - 1)) with (JsNumber.ofZ 0) in Hutc. rewrite Hutc.
  cbn [JsDate.getUTCDay]. rewrite Day_of_days.
  unfold JsNumber.ofZ. do 2 f_equal.
  unfold weekOf. cbv zeta.
  set (c := JsDate.daysFromCivil y m d). set (j := JsDate.daysFromCivil y 1 1).
  rewrite (Qceiling_sevenths _ (c - j + 1 + (j + 4) mod 7)).
  - reflexivity.
  - unfold JsDate.msPerDay.
    replace (c * 86400000 - j * 86400000) with ((c - j) * 86400000) by lia.
    rewrite !inject_Z_plus, inject_Z_mult. field.
Qed.

(** X20.  For the text of a date of the calendar in the years 100 to
    9999, the week number is the week of that date counted from the
    Sunday on or before 1 January: it is a whole number from 1 to 54, and
    it is 1 on 1 January. *)
Theorem getWeekNumber_of_date_text :
  forall y m d : Z,
    100 <= y <= 9999 -> validDate y m d ->
    getWeekNumber (isoText y m d) = JsNumber.ofZ (weekOf y m d)
    /\ 1 <= weekOf y m d <= 54
    /\ getWeekNumber (isoText y 1 1) = Finite 1.
Proof.
  intros y m d Hy Hvalid. split; [|split].
  - apply getWeekNumber_isoText; assumption.
  - apply weekOf_range, Hvalid.
  - rewrite getWeekNumber_isoText, weekOf_jan1; [reflexivity|exact Hy|].
    split; [lia|]. pose proof (daysInMonth_range y 1 ltac:(lia)). lia.
Qed.

Lemma getWeekNumber_of_date_text_witness :
  100 <= 2024 <= 9999
  /\ validDate 2024 12 31
  /\ getWeekNumber (isoText 2024 12 31) = JsNumber.ofZ (weekOf 2024 12 31)
  /\ 1 <= weekOf 2024 12 31 <= 54
  /\ getWeekNumber (isoText 2024 1 1) = Finite 1.
Proof.
  assert (Hvalid : validDate 2024 12 31)
    by (unfold validDate; vm_compute; intuition discriminate).
  split; [lia|]. split; [exact Hvalid|].
  apply (getWeekNumber_of_date_text 2024 12 31); [lia|exact Hvalid].
Defined.

(** ** The compiled sheet *)

Lemma forLoop_seq {S : Type} (lo hi : nat) (body : nat -> S -> S) (s : S) :
  forLoop lo hi body s = foldl (fun s i => body i s) s (seq lo (hi - lo)).
Proof. reflexivity. Qed.

Lemma foldl_skip {S : Type} (body : nat -> S -> S) (l : list nat) (s : S) :
  (forall C s', C ∈ l -> body C s' = s') -> foldl (fun s i => body i s) s l = s.
Proof.
  induction l as [|C l IH]; intros Hskip; [reflexivity|].
  cbn [foldl]. rewrite (Hskip C) by left. apply IH.
  intros C' s' HC'. apply Hskip. right. exact HC'.
Qed.

(** A loop whose body acts at one index only is one run of the body. *)
Lemma forLoop_only {S : Type} (lo hi k : nat) (body : nat -> S -> S) (s : S) :
  (lo <= k < hi)%nat ->
  (forall C s', C <> k -> body C s' = s') ->
  forLoop lo hi body s = body k s.
Proof.
  intros Hk Hskip. rewrite forLoop_seq.
  replace (hi - lo)%nat with ((k - lo) + Datatypes.S (hi - k - 1))%nat by lia.
  rewrite seq_app, foldl_app.
  rewrite (foldl_skip body (seq lo (k - lo))).
  - replace (lo + (k - lo))%nat with k by lia. cbn [seq foldl].
    apply foldl_skip. intros C s' HC. apply Hskip.
    apply elem_of_seq in HC. lia.
  - intros C s' HC. apply Hskip. apply elem_of_seq in HC. lia.
Qed.

(** One pass of the inner formatting loop over the columns of a sheet
    touches column 2 only. *)
Lemma formatCells_row (R width : nat) (rows : list (list (option SheetCell))) :
  (0 < R)%nat -> (2 < width)%nat ->
  forLoop 0 width (fun C rows =>
    match rows !! R ≫= (fun row => row !! C) with
    | Some (Some cell) =>
        if (C =? 2)%nat && (0 <? R)%nat then
          alter (fun row => <[C := Some (mkCell (cell_v cell) "n" (Some "0.0%"))]> row) R rows
        else rows
    | _ => rows
    end) rows
  = alter formatScore R rows.
Proof.
  intros HR Hwidth. rewrite (forLoop_only 0 width 2) by
    (try lia; intros C rows' HC; apply Nat.eqb_neq in HC; rewrite HC; cbn [andb];
     destruct (rows' !! R ≫= (fun row => row !! C)) as [[cell|]|]; reflexivity).
  apply Nat.ltb_lt in HR. rewrite HR. cbn [Nat.eqb andb].
  apply list_eq. intros i.
  destruct (rows !! R) as [row|] eqn:Hrow; cbn [mbind option_bind].
  - destruct (row !! 2%nat) as [[cell|]|] eqn:Hcell;
      (destruct (decide (i = R)) as [->|Hne];
       [rewrite ?list_lookup_alter_eq, Hrow; unfold formatScore; cbn; rewrite Hcell; reflexivity
       |rewrite ?list_lookup_alter_ne by congruence; reflexivity]).
  - destruct (decide (i = R)) as [->|Hne].
    + rewrite list_lookup_alter_eq, Hrow. reflexivity.
    + rewrite list_lookup_alter_ne by congruence. reflexivity.
Qed.

Lemma foldl_agree {S I : Type} (f g : S -> I -> S) (l : list I) :
  forall s : S, (forall x s', x ∈ l -> f s' x = g s' x) -> foldl f s l = foldl g s l.
Proof.
  induction l as [|x l IH]; intros s Hfg; [reflexivity|].
  cbn [foldl]. rewrite (Hfg x s) by left. apply IH.
  intros y s' Hy. apply Hfg. right. exact Hy.
Qed.

Lemma lookup_foldl_alter {A : Type} (g : A -> A) (k : nat) :
  forall (a : nat) (l : list A) (i : nat),
    foldl (fun l R => alter g R l) l (seq a k) !! i
    = if bool_decide (a <= i < a + k)%nat then g <$> l !! i else l !! i.
Proof.
  induction k as [|k IH]; intros a l i; cbn [seq foldl].
  - rewrite bool_decide_eq_false_2 by lia. reflexivity.
  - rewrite IH. destruct (decide (i = a)) as [->|Hne].
    + rewrite bool_decide_eq_false_2 by lia.
      rewrite bool_decide_eq_true_2 by lia. apply list_lookup_alter_eq.
    + rewrite list_lookup_alter_ne by congruence.
      apply (f_equal (fun b : bool => if b then g <$> l !! i else l !! i)).
      apply bool_decide_ext. lia.
Qed.

Lemma lookup_map {A B : Type} (f : A -> B) (l : list A) :
  forall i : nat, map f l !! i = f <$> l !! i.
Proof.
  induction l as [|x l IH]; intros [|i]; try reflexivity. apply IH.
Qed.

Lemma formatScore_rowCells (row : ProcessedRow) : formatScore (rowCells row) = formattedCells row.
Proof. reflexivity. Qed.

(** X21.  The compiled sheet is named [Compiled Data] and has the eleven
    column widths; it is empty for no rows, and otherwise it is a header
    row of the eleven field names followed by one row for each metric
    row, in order: the date as text, the week and the score as numbers,
    the score alone with the percentage format, and for each of the other
    metrics a number cell, or no cell when it is [null]. *)
Theorem compiledSheet_cells :
  forall allRows : list ProcessedRow,
    sheetName (compiledSheet allRows) = "Compiled Data"
    /\ sheetCols (compiledSheet allRows) = [15; 8; 22; 18; 20; 18; 18; 14; 20; 16; 22]
    /\ sheetRows (compiledSheet allRows)
       = match allRows with
         | [] => []
         | _ => map textCell fieldNames :: map formattedCells allRows
         end.
Proof.
  intros allRows. split; [reflexivity|]. split; [reflexivity|].
  unfold compiledSheet. cbn [sheetRows].
  destruct allRows as [|row0 rest]; [reflexivity|].
  set (allRows := row0 :: rest).
  assert (Hsheet : json_to_sheet allRows = map textCell fieldNames :: map rowCells allRows)
    by reflexivity.
  rewrite Hsheet. set (data := map rowCells allRows).
  set (header := map textCell fieldNames). unfold formatCells.
  change (length (default [] ((header :: data) !! 0%nat)) - 1 + 1)%nat with 11%nat.
  cbv zeta. rewrite forLoop_seq.
  rewrite (foldl_agree _ (fun rows R => alter formatScore R rows)).
  - apply list_eq. intros i. rewrite lookup_foldl_alter.
    destruct i as [|j].
    + rewrite bool_decide_eq_false_2 by lia. reflexivity.
    + change ((header :: data) !! S j) with (data !! j).
      change ((header :: map formattedCells allRows) !! S j)
        with (map formattedCells allRows !! j).
      unfold data. rewrite !lookup_map.
      destruct (allRows !! j) as [row|] eqn:Hj; cbn [fmap option_fmap option_map];
        case_bool_decide as Hin; try reflexivity.
      exfalso. apply Hin. apply lookup_lt_Some in Hj.
      cbn [length]. rewrite List.length_map. lia.
  - intros R rows HR. apply elem_of_seq in HR.
    apply (formatCells_row R 11 rows); lia.
Qed.

(** X22.  Whatever the order of the rows it is given, the encoder leaves
    in the caller's array the same rows, none lost or repeated, in date
    order when the collation is a total order, and the buffer it returns
    is the written sheet of the array as it leaves it. *)
Theorem generateCompiledExcel_sorts_the_array :
  forall (h : Host) (ArrayBuffer : Type) (XLSX_write : list Worksheet -> ArrayBuffer)
         (allRows : list ProcessedRow),
    fst (generateCompiledExcel h XLSX_write allRows) ≡ₚ allRows
    /\ snd (generateCompiledExcel h XLSX_write allRows)
       = XLSX_write [compiledSheet (fst (generateCompiledExcel h XLSX_write allRows))]
    /\ (totalOrder (localeCompare h) ->
        inOrder (compareRows h) (fst (generateCompiledExcel h XLSX_write allRows)) = true).
Proof.
  intros h ArrayBuffer XLSX_write allRows. unfold generateCompiledExcel. cbn [fst snd].
  split; [apply Array_sort_Permutation|]. split; [reflexivity|].
  intros Htotal. apply Sorted_inOrder, Array_sort_Sorted.
  intros a b. apply Htotal.
Qed.

(** ** More on words and numbers *)

(** X23.  The word read from a cell is never empty and is already
    trimmed, and reading it again as a text cell gives the same word; so
    a cell whose text is the blank sentinel itself is not told apart from
    a blank cell. *)
Theorem cellWord_is_normal :
  forall (h : Host) (v : Cell),
    cellWord h v <> ""
    /\ JsString.trim (cellWord h v) = cellWord h v
    /\ cellWord h (CString (cellWord h v)) = cellWord h v
    /\ cellWord h (CString "__BLANK__") = cellWord h (CString "").
Proof.
  intros h v.
  assert (Hshape : cellWord h v = "__BLANK__"
                   \/ (JsString.trim (cellWord h v) = cellWord h v /\ cellWord h v <> "")).
  { unfold cellWord.
    destruct (String.eqb_spec (JsString.trim (ToString h (orElse v (CString "")))) "")
      as [Hempty|Hfull]; [left; reflexivity|].
    right. split; [apply trim_idem|exact Hfull]. }
  split; [|split; [|split; [|reflexivity]]].
  - destruct Hshape as [->|[_ Hne]]; [discriminate|exact Hne].
  - destruct Hshape as [->|[Htrim _]]; [reflexivity|exact Htrim].
  - destruct Hshape as [->|[Htrim Hne]]; [reflexivity|].
    unfold cellWord at 1. unfold orElse. cbn [ToBoolean ToString].
    destruct (cellWord h v) as [|c r] eqn:Hw; [contradiction|].
    cbn [JsString.isEmpty negb]. cbn [ToString]. rewrite Htrim.
    reflexivity.
Qed.

Lemma percentCheck_all : forallRange percentCheck (Z.to_nat 10999) (-999) = true.
Proof. vm_compute. reflexivity. Qed.

(** X24.  For every whole number from -999 to 9999, its text reads as
    the number itself and its text followed by [%] reads as its
    hundredth. *)
Theorem parseNumber_percent :
  forall n : Z,
    -999 <= n <= 9999 ->
    parseNumber (CString (JsString.ofZ n ++ "%")) = Some (Finite (Qred (n # 100)))
    /\ parseNumber (CString (JsString.ofZ n)) = Some (JsNumber.ofZ n).
Proof.
  intros n Hn.
  assert (Hc := forallRange_spec _ _ _ percentCheck_all n).
  rewrite Z2Nat.id in Hc by lia. specialize (Hc ltac:(lia)).
  unfold percentCheck in Hc.
  destruct (parseNumber (CString (JsString.ofZ n ++ "%"))) as [p|]; [|discriminate].
  destruct (parseNumber (CString (JsString.ofZ n))) as [q|]; [|discriminate].
  apply andb_prop in Hc as [Hp Hq].
  apply numberEqb_eq in Hp, Hq. subst. split; reflexivity.
Qed.

Lemma parseNumber_percent_witness :
  -999 <= 45 <= 9999
  /\ parseNumber (CString (JsString.ofZ 45 ++ "%")) = Some (Finite (Qred (45 # 100)))
  /\ parseNumber (CString (JsString.ofZ 45)) = Some (JsNumber.ofZ 45).
Proof.
  split; [lia|]. apply (parseNumber_percent 45). lia.
Defined.

(** ** Rows of the same date *)

Lemma sortInsert_filter_same (cmp : ProcessedRow -> ProcessedRow -> Z) (s : string)
    (x : ProcessedRow) (l : list ProcessedRow) :
  (forall y, Date_ y = Date_ x -> cmp x y <= 0) ->
  filter (fun r => Date_ r = s) (sortInsert cmp x l)
  = filter (fun r => Date_ r = s) (x :: l).
Proof.
  intros Hsame. induction l as [|y l IH]; [reflexivity|].
  cbn [sortInsert]. destruct (Z.leb_spec (cmp x y) 0) as [Hle|Hgt]; [reflexivity|].
  rewrite filter_cons, IH, !filter_cons.
  destruct (decide (Date_ y = s)) as [Hy|Hy]; [|reflexivity].
  destruct (decide (Date_ x = s)) as [Hx|Hx]; [|reflexivity].
  specialize (Hsame y ltac:(congruence)). lia.
Qed.

Lemma Array_sort_filter_same (cmp : ProcessedRow -> ProcessedRow -> Z) (s : string)
    (l : list ProcessedRow) :
  (forall x y, Date_ y = Date_ x -> cmp x y <= 0) ->
  filter (fun r => Date_ r = s) (Array_sort cmp l) = filter (fun r => Date_ r = s) l.
Proof.
  intros Hsame. induction l as [|x l IH]; [reflexivity|].
  cbn. fold (Array_sort cmp l).
  rewrite sortInsert_filter_same by (apply Hsame).
  rewrite !filter_cons, IH. reflexivity.
Qed.

(** X25.  Sorting by date is stable: provided a date text does not
    compare greater than itself, the rows of any one date are, in the
    compiled rows and in the array the encoder leaves, in the order they
    had when extracted, file after file and column after column. *)
Theorem same_date_rows_keep_order :
  forall (h : Host) (ArrayBuffer : Type) (XLSX_write : list Worksheet -> ArrayBuffer),
    (forall s : string, localeCompare h s s <= 0) ->
    (forall (allRows : list ProcessedRow) (s : string),
        filter (fun r => Date_ r = s) (fst (generateCompiledExcel h XLSX_write allRows))
        = filter (fun r => Date_ r = s) allRows)
    /\ (forall (decoded : list Grid) rows buffer (s : string),
          compileFiles h XLSX_write decoded = Some (rows, buffer) ->
          filter (fun r => Date_ r = s) rows
          = filter (fun r => Date_ r = s) (extractedRows h decoded)).
Proof.
  intros h ArrayBuffer XLSX_write Hrefl.
  assert (Hsame : forall x y : ProcessedRow, Date_ y = Date_ x -> compareRows h x y <= 0).
  { intros x y Hxy. unfold compareRows. rewrite Hxy. apply Hrefl. }
  split.
  - intros allRows s. unfold generateCompiledExcel. cbn [fst].
    apply Array_sort_filter_same, Hsame.
  - intros decoded rows buffer s. unfold compileFiles.
    rewrite (gather_rows h decoded []). cbn [app].
    destruct (extractedRows h decoded) as [|row0 rows0] eqn:Hrows; [discriminate|].
    intros Heq. unfold generateCompiledExcel in Heq.
    set (gathered := row0 :: rows0) in *. clearbody gathered.
    injection Heq as <- _.
    rewrite !Array_sort_filter_same by exact Hsame. reflexivity.
Qed.

Lemma same_date_rows_keep_order_witness :
  (forall s : string, localeCompare plainHost s s <= 0)
  /\ (forall (allRows : list ProcessedRow) (s : string),
        filter (fun r => Date_ r = s)
               (fst (generateCompiledExcel plainHost (fun book => book) allRows))
        = filter (fun r => Date_ r = s) allRows)
  /\ (forall (decoded : list Grid) rows buffer (s : string),
        compileFiles plainHost (fun book => book) decoded = Some (rows, buffer) ->
        filter (fun r => Date_ r = s) rows
        = filter (fun r => Date_ r = s) (extractedRows plainHost decoded)).
Proof.
  assert (Hrefl : forall s : string, localeCompare plainHost s s <= 0).
  { intros s. cbn [localeCompare plainHost]. unfold JsString.compareCodeUnits.
    pose proof (String.compare_antisym s s) as Ha.
    destruct (String.compare s s); cbn in Ha; [lia|discriminate Ha|discriminate Ha]. }
  split; [exact Hrefl|].
  apply (same_date_rows_keep_order plainHost (list Worksheet) (fun book => book)).
  exact Hrefl.
Defined.

(** ** The order of date texts *)

Lemma digitValue_range (c : ascii) (v : Z) : JsNumber.digitValue c = Some v -> 0 <= v <= 9.
Proof.
  unfold JsNumber.digitValue.
  destruct (Z.leb_spec 48 (JsString.code c)); destruct (Z.leb_spec (JsString.code c) 57);
    cbn [andb]; intros [= <-]; lia.
Qed.

Lemma digit_compare (c c' : ascii) (a b : Z) :
  JsNumber.digitValue c = Some a -> JsNumber.digitValue c' = Some b ->
  Ascii.compare c c' = (a ?= b).
Proof.
  unfold JsNumber.digitValue, JsString.code, Ascii.compare.
  destruct (_ && _); [|discriminate]. destruct (_ && _); [|discriminate].
  intros [= <-] [= <-]. rewrite <- N2Z.inj_compare.
  destruct (Z.compare_spec (Z.of_N (N_of_ascii c)) (Z.of_N (N_of_ascii c')));
    destruct (Z.compare_spec (Z.of_N (N_of_ascii c) - 48) (Z.of_N (N_of_ascii c') - 48));
    try reflexivity; lia.
Qed.

Lemma append_empty_r (s : string) : s ++ "" = s.
Proof.
  induction s as [|c r IH]; [reflexivity|].
  change (String c r ++ "") with (String c (r ++ "")). rewrite IH. reflexivity.
Qed.

(** Two runs of [n] digits, each followed by more text, compare as the
    numbers they write and then as what follows. *)
Lemma digits_compare (n : nat) :
  forall (s t : string) (acc acc' a b : Z) (u v : string),
    JsDate.digitsN n acc s = Some (a, "") -> JsDate.digitsN n acc' t = Some (b, "") ->
    exists vs vt,
      a = acc * 10 ^ Z.of_nat n + vs /\ b = acc' * 10 ^ Z.of_nat n + vt
      /\ 0 <= vs < 10 ^ Z.of_nat n /\ 0 <= vt < 10 ^ Z.of_nat n
      /\ String.compare (s ++ u) (t ++ v)
         = match vs ?= vt with Eq => String.compare u v | c => c end.
Proof.
  induction n as [|n IH]; intros s t acc acc' a b u v.
  - cbn [JsDate.digitsN]. intros [= <- ->] [= <- ->]. exists 0, 0.
    change (10 ^ Z.of_nat 0) with 1.
    split; [lia|]. split; [lia|]. split; [lia|]. split; [lia|]. reflexivity.
  - cbn [JsDate.digitsN].
    destruct s as [|c r]; [discriminate|]. destruct t as [|c' r']; [discriminate|].
    destruct (JsNumber.digitValue c) as [dv|] eqn:Hc; [|discriminate].
    destruct (JsNumber.digitValue c') as [dv'|] eqn:Hc'; [|discriminate].
    intros Hr Hr'.
    destruct (IH r r' _ _ a b u v Hr Hr') as (vr & vr' & Ha & Hb & Hvr & Hvr' & Hcmp).
    pose proof (digitValue_range c dv Hc) as Hdv.
    pose proof (digitValue_range c' dv' Hc') as Hdv'.
    rewrite Nat2Z.inj_succ, Z.pow_succ_r by lia.
    set (P := 10 ^ Z.of_nat n) in *.
    assert (HP : 0 < P) by (unfold P; apply Z.pow_pos_nonneg; lia).
    exists (dv * P + vr), (dv' * P + vr').
    split; [lia|]. split; [lia|]. split; [nia|]. split; [nia|].
    change (String c r ++ u) with (String c (r ++ u)).
    change (String c' r' ++ v) with (String c' (r' ++ v)).
    cbn [String.compare]. rewrite (digit_compare c c' dv dv' Hc Hc'), Hcmp.
    destruct (Z.compare_spec dv dv') as [Heq|Hlt|Hgt].
    + subst dv'. rewrite Z.add_compare_mono_l. reflexivity.
    + assert (Hlt' : dv * P + vr < dv' * P + vr') by nia.
      apply Z.compare_lt_iff in Hlt'. rewrite Hlt'. reflexivity.
    + assert (Hgt' : dv' * P + vr' < dv * P + vr) by nia.
      apply Z.compare_gt_iff in Hgt'. rewrite Hgt'. reflexivity.
Qed.

Lemma isoText_compare (y m d y' m' d' : Z) :
  1000 <= y <= 9999 -> 1000 <= y' <= 9999 ->
  0 <= m <= 99 -> 0 <= m' <= 99 -> 0 <= d <= 99 -> 0 <= d' <= 99 ->
  String.compare (isoText y m d) (isoText y' m' d') = dateCompare y m d y' m' d'.
Proof.
  intros Hy Hy' Hm Hm' Hd Hd'. unfold isoText, dateCompare.
  destruct (twoDigitText m Hm) as (_ & _ & Hmm).
  destruct (twoDigitText m' Hm') as (_ & _ & Hmm').
  destruct (twoDigitText d Hd) as (_ & _ & Hdd).
  destruct (twoDigitText d' Hd') as (_ & _ & Hdd').
  destruct (digits_compare 4 _ _ 0 0 y y'
              ("-" ++ JsString.padStart2 (JsString.ofZ m) ++ "-"
               ++ JsString.padStart2 (JsString.ofZ d))
              ("-" ++ JsString.padStart2 (JsString.ofZ m') ++ "-"
               ++ JsString.padStart2 (JsString.ofZ d'))
              (fourDigitText y Hy) (fourDigitText y' Hy'))
    as (vy & vy' & -> & -> & _ & _ & ->).
  rewrite !Z.mul_0_l, !Z.add_0_l.
  destruct (vy ?= vy'); try reflexivity.
  change ("-" ++ ?r) with (String "-" r). cbn [String.compare].
  change (Ascii.compare "-" "-") with Eq. cbv iota.
  destruct (digits_compare 2 _ _ 0 0 m m'
              ("-" ++ JsString.padStart2 (JsString.ofZ d))
              ("-" ++ JsString.padStart2 (JsString.ofZ d')) Hmm Hmm')
    as (vm & vm' & -> & -> & _ & _ & ->).
  rewrite !Z.mul_0_l, !Z.add_0_l.
  destruct (vm ?= vm'); try reflexivity.
  change ("-" ++ ?r) with (String "-" r). cbn [String.compare].
  change (Ascii.compare "-" "-") with Eq. cbv iota.
  destruct (digits_compare 2 _ _ 0 0 d d' "" "" Hdd Hdd')
    as (vd & vd' & -> & -> & _ & _ & Hcmp).
  rewrite !append_empty_r in Hcmp. rewrite Hcmp, !Z.mul_0_l, !Z.add_0_l.
  destruct (vd ?= vd'); reflexivity.
Qed.

(** The day number of 1 January grows with the year. *)
Lemma jan1_monotone (y y' : Z) :
  y <= y' -> JsDate.daysFromCivil y 1 1 <= JsDate.daysFromCivil y' 1 1.
Proof.
  intros Hle. unfold JsDate.daysFromCivil.
  change (1 <=? 2) with true. change (2 <? 1) with false. cbv iota.
  Z.div_mod_to_equations. lia.
Qed.

Lemma nextMonth_start (y m : Z) :
  1 <= m <= 11 ->
  JsDate.daysFromCivil y (m + 1) 1 = JsDate.daysFromCivil y m 1 + JsDate.daysInMonth y m.
Proof.
  intros Hm. unfold JsDate.daysInMonth.
  destruct (Z.eqb_spec m 12); [lia|]. lia.
Qed.

Lemma nextYear_start (y : Z) :
  JsDate.daysFromCivil (y + 1) 1 1 = JsDate.daysFromCivil y 12 1 + JsDate.daysInMonth y 12.
Proof. unfold JsDate.daysInMonth. change (12 =? 12) with true. cbv iota. lia. Qed.

Lemma monthStart_monotone (y : Z) (k : nat) :
  forall m : Z,
    1 <= m -> m + Z.of_nat k <= 12 ->
    JsDate.daysFromCivil y m 1 <= JsDate.daysFromCivil y (m + Z.of_nat k) 1.
Proof.
  induction k as [|k IH]; intros m Hm Hk.
  - rewrite Z.add_0_r. lia.
  - rewrite Nat2Z.inj_succ in *.
    replace (m + Z.succ (Z.of_nat k)) with ((m + 1) + Z.of_nat k) by lia.
    specialize (IH (m + 1) ltac:(lia) ltac:(lia)).
    rewrite (nextMonth_start y m) in IH by lia.
    pose proof (daysInMonth_range y m ltac:(lia)). lia.
Qed.

(** Dates in calendar order have day numbers in the same order. *)
Lemma daysFromCivil_monotone (y m d y' m' d' : Z) :
  validDate y m d -> validDate y' m' d' ->
  dateCompare y m d y' m' d' = Lt ->
  JsDate.daysFromCivil y m d < JsDate.daysFromCivil y' m' d'.
Proof.
  intros (Hm & Hd) (Hm' & Hd') Hlt.
  assert (Hend : forall m1 d1, 1 <= m1 <= 12 -> 1 <= d1 <= JsDate.daysInMonth y m1 ->
                               forall m2, m1 < m2 <= 12 ->
                               JsDate.daysFromCivil y m1 d1 < JsDate.daysFromCivil y m2 1).
  { intros m1 d1 Hm1 Hd1 m2 Hm2.
    pose proof (monthStart_monotone y (Z.to_nat (m2 - (m1 + 1))) (m1 + 1) ltac:(lia)) as Hmono.
    rewrite Z2Nat.id in Hmono by lia.
    replace (m1 + 1 + (m2 - (m1 + 1))) with m2 in Hmono by lia.
    specialize (Hmono ltac:(lia)).
    rewrite (nextMonth_start y m1) in Hmono by lia.
    rewrite (daysFromCivil_day y m1 d1). lia. }
  unfold dateCompare in Hlt.
  destruct (Z.compare_spec y y') as [Hy|Hy|Hy]; [subst y'| |discriminate].
  - destruct (Z.compare_spec m m') as [Hmm|Hmm|Hmm]; [subst m'| |discriminate].
    + apply (proj1 (Z.compare_lt_iff _ _)) in Hlt.
      rewrite (daysFromCivil_day y m d), (daysFromCivil_day y m d'). lia.
    + pose proof (Hend m d Hm Hd m' ltac:(lia)).
      rewrite (daysFromCivil_day y m' d'). lia.
  - assert (Hlast : JsDate.daysFromCivil y m d < JsDate.daysFromCivil (y + 1) 1 1).
    { rewrite nextYear_start.
      destruct (Z.eq_dec m 12) as [->|Hne].
      - rewrite (daysFromCivil_day y 12 d). lia.
      - pose proof (Hend m d Hm Hd 12 ltac:(lia)).
        pose proof (daysInMonth_range y 12 ltac:(lia)). lia. }
    pose proof (jan1_monotone (y + 1) y' ltac:(lia)) as Hjan.
    pose proof (monthStart_monotone y' (Z.to_nat (m' - 1)) 1 ltac:(lia)) as Hmono.
    rewrite Z2Nat.id in Hmono by lia. replace (1 + (m' - 1)) with m' in Hmono by lia.
    specialize (Hmono ltac:(lia)).
    rewrite (daysFromCivil_day y' m' d'). lia.
Qed.

Lemma dateCompare_antisym (y m d y' m' d' : Z) :
  dateCompare y' m' d' y m d = CompOpp (dateCompare y m d y' m' d').
Proof.
  unfold dateCompare.
  rewrite (Z.compare_antisym y y'), (Z.compare_antisym m m'), (Z.compare_antisym d d').
  destruct (y ?= y'); cbn; [|reflexivity|reflexivity].
  destruct (m ?= m'); cbn; reflexivity.
Qed.

Lemma dateCompare_days (y m d y' m' d' : Z) :
  validDate y m d -> validDate y' m' d' ->
  dateCompare y m d y' m' d'
  = (JsDate.daysFromCivil y m d ?= JsDate.daysFromCivil y' m' d').
Proof.
  intros Hv Hv'.
  destruct (dateCompare y m d y' m' d') eqn:Hc.
  - unfold dateCompare in Hc.
    destruct (Z.compare_spec y y'); try discriminate.
    destruct (Z.compare_spec m m'); try discriminate.
    apply Z.compare_eq in Hc. subst. symmetry. apply Z.compare_refl.
  - symmetry. apply Z.compare_lt_iff. apply daysFromCivil_monotone; assumption.
  - symmetry. apply Z.compare_gt_iff.
    apply daysFromCivil_monotone; try assumption.
    rewrite dateCompare_antisym, Hc. reflexivity.
Qed.

(** X26.  Between the texts of two valid [Date]s whose years have four
    digits, the code-unit order is the order of their UTC days; a year
    below 1000 is written without padding and breaks it: the last day of
    999 sorts after the first day of 1000. *)
Theorem date_text_order_is_day_order :
  (forall (t t' y y' : Z),
      JsDate.getUTCFullYear (Some t) = Some y -> 1000 <= y <= 9999 ->
      JsDate.getUTCFullYear (Some t') = Some y' -> 1000 <= y' <= 9999 ->
      String.compare (toIsoDateString (Some t)) (toIsoDateString (Some t'))
      = (t / 86400000 ?= t' / 86400000))
  /\ JsString.compareCodeUnits (isoText 999 12 31) (isoText 1000 1 1) = 1
  /\ JsDate.daysFromCivil 999 12 31 < JsDate.daysFromCivil 1000 1 1.
Proof.
  split; [|split; vm_compute; reflexivity].
  intros t t' y y' Hyear Hy Hyear' Hy'.
  pose proof (daysFromCivil_civilFromDays (JsDate.Day t)) as Hr.
  pose proof (daysFromCivil_civilFromDays (JsDate.Day t')) as Hr'.
  unfold JsDate.getUTCFullYear in Hyear, Hyear'.
  destruct (JsDate.civilFromDays (JsDate.Day t)) as [[y0 m] d] eqn:Hc.
  destruct (JsDate.civilFromDays (JsDate.Day t')) as [[y0' m'] d'] eqn:Hc'.
  cbn [fst] in Hyear, Hyear'. injection Hyear as ->. injection Hyear' as ->.
  destruct Hr as (Hdays & Hm & Hd). destruct Hr' as (Hdays' & Hm' & Hd').
  pose proof (daysInMonth_range y m Hm). pose proof (daysInMonth_range y' m' Hm').
  rewrite (toIsoDateString_civil t y m d Hc), (toIsoDateString_civil t' y' m' d' Hc').
  rewrite isoText_compare by lia.
  rewrite dateCompare_days by (split; assumption).
  rewrite Hdays, Hdays'. reflexivity.
Qed.

Lemma date_text_order_is_day_order_witness :
  JsDate.getUTCFullYear jan5 = Some 2024 /\ 1000 <= 2024 <= 9999
  /\ JsDate.getUTCFullYear jan6 = Some 2024
  /\ String.compare (toIsoDateString jan5) (toIsoDateString jan6)
     = (1704412800000 / 86400000 ?= 1704499200000 / 86400000).
Proof.
  split; [vm_compute; reflexivity|]. split; [lia|]. split; [vm_compute; reflexivity|].
  apply (proj1 date_text_order_is_day_order 1704412800000 1704499200000 2024 2024);
    [vm_compute; reflexivity|lia|vm_compute; reflexivity|lia].
Defined.
